(** * AgriShield-AI: the training script and the liveness service

    A shallow embedding of the two programs of the repository:

    - [Train]: [ml/train_plantvillage.py], a straight-line script that reads
      its configuration from the environment, loads a directory of images,
      assembles a transfer-learning model, fits it twice and exports it;
    - [Backend]: [backend/main.py], a FastAPI application with a CORS
      middleware and two routes.

    The script is a sequence of calls into the Python runtime, the
    operating system and Keras.  Those are not part of the repository: they
    are gathered in a record [Host] and every theorem holds for all hosts.
    What the script itself does (the order of the calls, the arguments it
    passes, the loops it runs, the text it prints and writes) is embedded
    as it is written.

    Decimal literals of the source ([0.2], [1e-3], ...) are represented by
    the rational number they spell; Python's true division of two integers
    is represented by the exact quotient. *)

From Stdlib Require Import ZArith QArith Lia Ascii.
From stdpp Require Import base strings list gmap pretty.

Module Train.

(** ** Values the script manipulates *)

(** The line terminator of [f"{name}\n"]. *)
Definition LF : string := String "010"%char EmptyString.

(** Exceptions that can end the script. *)
Inductive exn :=
| ValueError          (* int() on a string that is not an integer literal *)
| OSError             (* os.listdir, open, write *)
| ZeroDivisionError   (* int / 0 *)
| LibraryError.       (* a Keras / TensorFlow call raised *)

(** Keyword arguments of [image_dataset_from_directory]. *)
Record load_args := {
  la_directory : string;
  la_validation_split : Q;
  la_subset : string;
  la_seed : option Z;
  la_image_size : Z * Z;
  la_batch_size : Z;
  la_label_mode : string }.

(** [tf.data] transformations chained onto a dataset. *)
Inductive ds_op :=
| Cache
| Shuffle (buffer_size : Z)
| Prefetch (buffer_size : Z).

Definition AUTOTUNE : Z := (-1)%Z.

(** A dataset object: the class names the loader discovered, the files that
    fell into the requested subset, and the transformations chained so far
    (first applied first). *)
Record dataset := {
  class_names : list string;
  file_paths : list string;
  ds_ops : list ds_op }.

Definition chain (op : ds_op) (ds : dataset) : dataset :=
  {| class_names := class_names ds;
     file_paths := file_paths ds;
     ds_ops := ds_ops ds ++ [op] |}.

(** Random preprocessing layers of the augmentation stage. *)
Inductive aug_layer :=
| RandomFlip (mode : string)
| RandomRotation (factor : Q)
| RandomZoom (height_factor : Q)
| RandomContrast (factor : Q)
| RandomBrightness (factor : Q).

(** The layers of the functional model, from input to output.  The backbone
    node records the [training=] argument of the call [base_model(x, ...)]. *)
Inductive node :=
| Input (shape : Z * Z * Z)
| Augmentation (stage : list aug_layer)
| PreprocessInput
| Backbone (weights : string) (include_top : bool) (input_shape : Z * Z * Z)
           (training : option bool)
| GlobalAveragePooling2D
| Dropout (rate : Q)
| Dense (units : Z) (activation : string).

Inductive learning_rate :=
| CosineDecay (initial_learning_rate : Q) (decay_steps : Z)
| FixedRate (lr : Q).

Inductive optimizer := Adam (lr : learning_rate).

Inductive loss := SparseCategoricalCrossentropy (label_smoothing : Q).

Inductive callback :=
| EarlyStopping (monitor : string) (patience : Z) (restore_best_weights : bool)
| ModelCheckpoint (filepath monitor : string) (save_best_only : bool).

(** What [model.compile] fixes: its arguments, and whether the backbone was
    trainable when it was called. *)
Record compiled := {
  c_optimizer : optimizer;
  c_loss : loss;
  c_metrics : list string;
  c_backbone_trainable : bool }.

(** One call of [model.fit]: the model as it stands, and the arguments. *)
Record fit_call := {
  f_model : list node;
  f_compiled : option compiled;
  f_train : dataset;
  f_validation : dataset;
  f_epochs : Z;
  f_callbacks : list callback;
  f_class_weight : gmap nat Q }.

(** What a fit reports back; the script never looks at it. *)
Record history := {
  epochs_run : nat;
  stopped_early : bool }.

(** Observable actions, in the order the script performs them. *)
Inductive event :=
| EvIsdir (path : string) (answer : bool)
| EvPrint (line : string)
| EvLoad (args : load_args) (ds : dataset)
| EvBackbone (weights : string) (include_top : bool) (input_shape : Z * Z * Z)
| EvModel (layers : list node)
| EvCompile (c : compiled)
| EvFit (call : fit_call) (h : history)
| EvSave (path : string) (model : list node) (c : option compiled)
| EvOpen (path mode encoding : string)
| EvWrite (path data : string)
| EvClose (path : string).

(** ** The host: Python runtime, operating system, Keras *)

Record Host := {
  (** [os.environ] *)
  environ : gmap string string;
  (** the builtin [int] on a string; [None] is [ValueError] *)
  py_int : string -> option Z;
  os_path_isdir : string -> bool;
  os_path_isfile : string -> bool;
  os_path_join : string -> string -> string;
  (** [os.listdir]; [None] is [OSError] *)
  os_listdir : string -> option (list string);
  (** the Keras loader: class names and the files of the subset; [None]
      when it raises *)
  keras_load : load_args -> option (list string * list string);
  (** [model.fit], which may depend on everything done before; [None] when
      it raises *)
  keras_fit : list event -> fit_call -> option history;
  (** whether one of the remaining calls (print, building the backbone,
      assembling the model, compile, save, open, write, close) raises, and
      what *)
  fault : list event -> event -> option exn }.

(** ** The script's monad: a trace, two mutable attributes, early exit *)

Inductive result (A : Type) :=
| Ok (a : A)
| Exit (code : Z)
| Raise (e : exn).
Arguments Ok {A} a.
Arguments Exit {A} code.
Arguments Raise {A} e.

(** [base_model.trainable] is mutated after [model] has been built around
    [base_model]; [model.compile] replaces the compiled configuration of the
    one model object.  Both live in the state, so that a later [fit] sees
    the current values. *)
Record pstate := {
  trace : list event;
  base_model_trainable : bool;
  model_compiled : option compiled }.

Definition initial : pstate :=
  {| trace := []; base_model_trainable := true; model_compiled := None |}.

Definition M (A : Type) : Type := pstate -> result A * pstate.

Definition ret {A} (a : A) : M A := fun s => (Ok a, s).

Definition bind {A B} (m : M A) (k : A -> M B) : M B :=
  fun s =>
    match m s with
    | (Ok a, s') => k a s'
    | (Exit c, s') => (Exit c, s')
    | (Raise e, s') => (Raise e, s')
    end.

Notation "x <- m ;; k" := (bind m (fun x => k))
  (at level 100, m at level 99, k at level 200).
Notation "m ;; k" := (bind m (fun _ => k))
  (at level 100, k at level 200).

Definition raise {A} (e : exn) : M A := fun s => (Raise e, s).

(** Appending to the trace leaves the model's attributes alone. *)
Definition record (evs : list event) (s : pstate) : pstate :=
  {| trace := trace s ++ evs;
     base_model_trainable := base_model_trainable s;
     model_compiled := model_compiled s |}.

Definition log (ev : event) : M unit := fun s => (Ok tt, record [ev] s).

Definition get_trace : M (list event) := fun s => (Ok (trace s), s).
Definition get_trainable : M bool := fun s => (Ok (base_model_trainable s), s).
Definition get_compiled : M (option compiled) := fun s => (Ok (model_compiled s), s).

Definition set_trainable (b : bool) : M unit :=
  fun s => (Ok tt,
            {| trace := trace s;
               base_model_trainable := b;
               model_compiled := model_compiled s |}).

Definition set_compiled (c : compiled) : M unit :=
  fun s => (Ok tt,
            {| trace := trace s;
               base_model_trainable := base_model_trainable s;
               model_compiled := Some c |}).

(** The status the script ends with: 0 at the end of the file, the
    argument of [sys.exit], 1 for an uncaught exception. *)
Definition exit_status {A} (r : result A) : Z :=
  match r with
  | Ok _ => 0
  | Exit c => c
  | Raise _ => 1
  end%Z.

(** The status the operating system sees.  On its way out the interpreter
    flushes the standard streams; when that flush fails the status is 120,
    whatever the script ended with. *)
Definition process_status {A} (flush_failed : bool) (r : result A) : Z :=
  if flush_failed then 120%Z else exit_status r.

(** ** Calls into the host *)

Section Script.

Context (h : Host).

(** [os.environ.get(key, default)] *)
Definition environ_get (key dflt : string) : string :=
  default dflt (environ h !! key).

(** [int(s)] *)
Definition int (s : string) : M Z :=
  match py_int h s with
  | Some n => ret n
  | None => raise ValueError
  end.

(** [os.path.isdir(p)]; it answers, it never raises. *)
Definition isdir (p : string) : M bool :=
  let b := os_path_isdir h p in
  log (EvIsdir p b) ;; ret b.

(** [sys.exit(code)] *)
Definition sys_exit {A} (code : Z) : M A := fun s => (Exit code, s).

(** A library call without a result: it raises when the host says so, and
    is recorded otherwise. *)
Definition perform (ev : event) : M unit :=
  fun s =>
    match fault h (trace s) ev with
    | Some e => (Raise e, s)
    | None => log ev s
    end.

(** [print(line)]: a call that can raise like any other (a line that the
    encoding of standard output cannot take, a stream that is broken); the
    trace records the calls that returned. *)
Definition print (line : string) : M unit := perform (EvPrint line).

Definition image_dataset_from_directory (args : load_args) : M dataset :=
  match keras_load h args with
  | None => raise LibraryError
  | Some (names, files) =>
      let ds := {| class_names := names; file_paths := files; ds_ops := [] |} in
      log (EvLoad args ds) ;; ret ds
  end.

Definition listdir (d : string) : M (list string) :=
  match os_listdir h d with
  | Some entries => ret entries
  | None => raise OSError
  end.

(** [MobileNetV2(weights=..., include_top=..., input_shape=...)]: a fresh
    Keras model is trainable. *)
Definition MobileNetV2 (weights : string) (include_top : bool)
    (input_shape : Z * Z * Z) : M unit :=
  perform (EvBackbone weights include_top input_shape) ;;
  set_trainable true.

(** [model.compile(optimizer=, loss=, metrics=)] *)
Definition compile (opt : optimizer) (l : loss) (metrics : list string) : M unit :=
  b <- get_trainable ;;
  let c := {| c_optimizer := opt; c_loss := l; c_metrics := metrics;
              c_backbone_trainable := b |} in
  perform (EvCompile c) ;;
  set_compiled c.

(** [model.fit(train, validation_data=, epochs=, callbacks=, class_weight=)] *)
Definition fit (model : list node) (train validation : dataset) (epochs : Z)
    (callbacks : list callback) (class_weight : gmap nat Q) : M history :=
  c <- get_compiled ;;
  tr <- get_trace ;;
  let call := {| f_model := model; f_compiled := c; f_train := train;
                 f_validation := validation; f_epochs := epochs;
                 f_callbacks := callbacks; f_class_weight := class_weight |} in
  match keras_fit h tr call with
  | None => raise LibraryError
  | Some hist => log (EvFit call hist) ;; ret hist
  end.

(** [model.save(path)] *)
Definition save (model : list node) (path : string) : M unit :=
  c <- get_compiled ;;
  perform (EvSave path model c).

(** [with open(path, mode, encoding=) as f: body]: the file is closed on
    the way out, also when the body raises. *)
Definition with_open (path mode encoding : string) (body : M unit) : M unit :=
  perform (EvOpen path mode encoding) ;;
  fun s =>
    match body s with
    | (Ok _, s') => perform (EvClose path) s'
    | (Exit c, s') => (Exit c, record [EvClose path] s')
    | (Raise e, s') => (Raise e, record [EvClose path] s')
    end.

(** Python's [a / b] on integers, as the exact quotient.  (Python rounds
    the quotient to the nearest double; the rounding is not modelled.) *)
Definition truediv (a b : Z) : M Q :=
  if (b =? 0)%Z then raise ZeroDivisionError
  else ret (inject_Z a / inject_Z b)%Q.

(** ** The script, top to bottom *)

Definition IMG_SIZE : Z * Z := (224, 224)%Z.
Definition BATCH_SIZE : Z := 32%Z.

(** Lines 47-53. *)
Definition data_augmentation : list aug_layer :=
  [ RandomFlip "horizontal";
    RandomRotation 0.1;
    RandomZoom 0.15;
    RandomContrast 0.2;
    RandomBrightness 0.2 ].

(** Lines 58-65; [num_classes] sizes the last layer. *)
Definition build_model (num_classes : Z) : list node :=
  [ Input (IMG_SIZE, 3%Z);
    Augmentation data_augmentation;
    PreprocessInput;
    Backbone "imagenet" false (IMG_SIZE, 3%Z) (Some false);
    GlobalAveragePooling2D;
    Dropout 0.2;
    Dense num_classes "softmax" ].

(** Lines 75-78. *)
Definition callbacks : list callback :=
  [ EarlyStopping "val_accuracy" 3 true;
    ModelCheckpoint "best_model.h5" "val_accuracy" true ].

(** Lines 83-89: one pass over the class names, counting the regular files
    of each class directory.  (The helper [count_files] of lines 80-81 is
    never called.) *)
Fixpoint count_loop (DATA_DIR : string) (names : list string)
    (total : Z) (counts : list Z) : M (Z * list Z) :=
  match names with
  | [] => ret (total, counts)
  | name :: rest =>
      let d := os_path_join h DATA_DIR name in
      entries <- listdir d ;;
      let c := Z.of_nat
                 (length (List.filter
                            (fun f => os_path_isfile h (os_path_join h d f))
                            entries)) in
      count_loop DATA_DIR rest (total + c)%Z (counts ++ [c])
  end.

(** Lines 91-93: [for i, c in enumerate(counts)], from index [i] on. *)
Fixpoint weight_loop (total num_classes : Z) (i : nat) (counts : list Z)
    (class_weight : gmap nat Q) : M (gmap nat Q) :=
  match counts with
  | [] => ret class_weight
  | c :: rest =>
      w <- truediv total (num_classes * Z.max c 1) ;;
      weight_loop total num_classes (S i) rest (<[i := w]> class_weight)
  end.

(** Lines 83-93 together: [total] and [counts] start at [0] and [[]],
    [class_weight] at [{}]. *)
Definition class_weights (DATA_DIR : string) (class_names : list string)
    (num_classes : Z) : M (gmap nat Q) :=
  counted <- count_loop DATA_DIR class_names 0%Z [] ;;
  let total := fst counted in
  let counts := snd counted in
  weight_loop total num_classes 0 counts ∅.

(** Lines 122-123.  The trace records the [f.write] calls that returned.
    A text file is buffered, so the call that raises need not be the one
    whose text cannot be stored; which call raises is the host's to say. *)
Fixpoint write_names (path : string) (names : list string) : M unit :=
  match names with
  | [] => ret tt
  | name :: rest =>
      perform (EvWrite path (name +:+ LF)) ;;
      write_names path rest
  end.

Definition loader_args (DATA_DIR subset : string) : load_args :=
  {| la_directory := DATA_DIR;
     la_validation_split := 0.2;
     la_subset := subset;
     la_seed := Some 123%Z;
     la_image_size := IMG_SIZE;
     la_batch_size := BATCH_SIZE;
     la_label_mode := "int" |}.

(** Lines 20-38. *)
Definition load_datasets (DATA_DIR : string) : M (dataset * dataset) :=
  train_ds <- image_dataset_from_directory (loader_args DATA_DIR "training") ;;
  val_ds <- image_dataset_from_directory (loader_args DATA_DIR "validation") ;;
  ret (train_ds, val_ds).

Definition sparse_cce : loss := SparseCategoricalCrossentropy 0.1.

(** Lines 44-45. *)
Definition train_pipeline (ds : dataset) : dataset :=
  chain (Prefetch AUTOTUNE) (chain (Shuffle 1000) (chain Cache ds)).

Definition val_pipeline (ds : dataset) : dataset :=
  chain (Prefetch AUTOTUNE) (chain Cache ds).

(** The module-level variables the later lines use. *)
Record globals := {
  g_class_names : list string;
  g_num_classes : Z;
  g_train_ds : dataset;
  g_val_ds : dataset;
  g_model : list node;
  g_class_weight : gmap nat Q }.

(** Lines 20-93: datasets, model, first compile, class weights. *)
Definition prepare (DATA_DIR : string) (EPOCHS : Z) : M globals :=
  loaded <- load_datasets DATA_DIR ;;
  let train_ds := fst loaded in
  let val_ds := snd loaded in
  let class_names := class_names train_ds in
  let num_classes := Z.of_nat (length class_names) in
  let train_ds := train_pipeline train_ds in
  let val_ds := val_pipeline val_ds in
  MobileNetV2 "imagenet" false (IMG_SIZE, 3%Z) ;;
  set_trainable false ;;
  let model := build_model num_classes in
  perform (EvModel model) ;;
  let lr_schedule := CosineDecay 0.001 (EPOCHS * 1000) in
  let opt := Adam lr_schedule in
  compile opt sparse_cce ["accuracy"] ;;
  class_weight <- class_weights DATA_DIR class_names num_classes ;;
  ret {| g_class_names := class_names; g_num_classes := num_classes;
         g_train_ds := train_ds; g_val_ds := val_ds; g_model := model;
         g_class_weight := class_weight |}.

(** Lines 95-101. *)
Definition phase1 (g : globals) (EPOCHS : Z) : M history :=
  fit (g_model g) (g_train_ds g) (g_val_ds g) EPOCHS callbacks (g_class_weight g).

(** Lines 103-117. *)
Definition phase2 (g : globals) (EPOCHS_FINE : Z) : M history :=
  set_trainable true ;;
  let fine_opt := Adam (FixedRate 0.00001) in
  compile fine_opt sparse_cce ["accuracy"] ;;
  fit (g_model g) (g_train_ds g) (g_val_ds g) EPOCHS_FINE callbacks (g_class_weight g).

(** Lines 119-123. *)
Definition export (g : globals) (OUTPUT_PATH : string) : M unit :=
  save (g_model g) OUTPUT_PATH ;;
  with_open "class_names.txt" "w" "utf-8"
    (write_names "class_names.txt" (g_class_names g)).

(** Lines 20-123: everything after the directory check. *)
Definition train_and_export (DATA_DIR : string) (EPOCHS EPOCHS_FINE : Z)
    (OUTPUT_PATH : string) : M unit :=
  g <- prepare DATA_DIR EPOCHS ;;
  history <- phase1 g EPOCHS ;;
  history_fine <- phase2 g EPOCHS_FINE ;;
  export g OUTPUT_PATH.

(** The whole script. *)
Definition main : M unit :=
  let DATA_DIR := environ_get "PLANTVILLAGE_DIR" "data/plantvillage" in
  EPOCHS <- int (environ_get "EPOCHS" "10") ;;
  EPOCHS_FINE <- int (environ_get "EPOCHS_FINE" "5") ;;
  let OUTPUT_PATH := environ_get "OUTPUT_PATH" "model.h5" in
  present <- isdir DATA_DIR ;;
  if negb present then
    print ("Missing dataset directory: " +:+ DATA_DIR) ;;
    print "Set PLANTVILLAGE_DIR to the root containing class subfolders." ;;
    sys_exit 1
  else
    train_and_export DATA_DIR EPOCHS EPOCHS_FINE OUTPUT_PATH.

(** One run of the script on the host: how it ended and what it did. *)
Definition run : result unit * pstate := main initial.

End Script.

(** ** Reading a run *)

(** One class directory and its number of regular files (line 87). *)
Definition class_has_count (h : Host) (DATA_DIR name : string) (c : Z) : Prop :=
  exists entries,
    os_listdir h (os_path_join h DATA_DIR name) = Some entries /\
    c = Z.of_nat
          (length (List.filter
                     (fun f => os_path_isfile h
                                 (os_path_join h (os_path_join h DATA_DIR name) f))
                     entries)).

Definition total_of (counts : list Z) : Z := foldr Z.add 0%Z counts.

(** The quotient of line 93. *)
Definition weight (total num_classes c : Z) : Q :=
  (inject_Z total / inject_Z (num_classes * Z.max c 1))%Q.

(** The configuration values of a run. *)
Definition DATA_DIR (h : Host) : string :=
  environ_get h "PLANTVILLAGE_DIR" "data/plantvillage".
Definition OUTPUT_PATH (h : Host) : string :=
  environ_get h "OUTPUT_PATH" "model.h5".
Definition EPOCHS_text (h : Host) : string := environ_get h "EPOCHS" "10".
Definition EPOCHS_FINE_text (h : Host) : string := environ_get h "EPOCHS_FINE" "5".

(** The fits of a trace, in order. *)
Definition fits (tr : list event) : list (fit_call * history) :=
  omap (fun ev => match ev with EvFit c hist => Some (c, hist) | _ => None end) tr.

(** The pieces handed to the [write] calls on [path] that returned, in
    order. *)
Definition written (path : string) (tr : list event) : list string :=
  omap (fun ev => match ev with
                  | EvWrite p data => if String.eqb p path then Some data else None
                  | _ => None
                  end) tr.

(** The fit the script issues with the model compiled as [c]. *)
Definition fit_call_of (g : globals) (c : option compiled) (epochs : Z) : fit_call :=
  {| f_model := g_model g; f_compiled := c; f_train := g_train_ds g;
     f_validation := g_val_ds g; f_epochs := epochs;
     f_callbacks := callbacks; f_class_weight := g_class_weight g |}.

(** The writes of lines 122-123. *)
Definition name_writes (names : list string) : list event :=
  map (fun name => EvWrite "class_names.txt" (name +:+ LF)) names.

(** The two compiled configurations of the script. *)
Definition phase1_compiled (EPOCHS : Z) : compiled :=
  {| c_optimizer := Adam (CosineDecay 0.001 (EPOCHS * 1000));
     c_loss := SparseCategoricalCrossentropy 0.1;
     c_metrics := ["accuracy"];
     c_backbone_trainable := false |}.

Definition phase2_compiled : compiled :=
  {| c_optimizer := Adam (FixedRate 0.00001);
     c_loss := SparseCategoricalCrossentropy 0.1;
     c_metrics := ["accuracy"];
     c_backbone_trainable := true |}.

(** What lines 20-93 establish: where the module-level variables come
    from.  [names] and [ft] are what the loader returned for the training
    subset, [names_v] and [fv] for the validation subset. *)
Definition prepared (h : Host) (D : string) (g : globals)
    (names ft names_v fv : list string) : Prop :=
  keras_load h (loader_args D "training") = Some (names, ft) /\
  keras_load h (loader_args D "validation") = Some (names_v, fv) /\
  fst (class_weights h D names (Z.of_nat (length names)) initial)
    = Ok (g_class_weight g) /\
  g_class_names g = names /\
  g_num_classes g = Z.of_nat (length names) /\
  g_model g = build_model (Z.of_nat (length names)) /\
  g_train_ds g =
    train_pipeline {| class_names := names; file_paths := ft; ds_ops := [] |} /\
  g_val_ds g =
    val_pipeline {| class_names := names_v; file_paths := fv; ds_ops := [] |}.

(** The actions of lines 20-93, of phase 1, of phase 2 and of the export,
    when none of them raises. *)
Definition prepare_events (D : string) (E : Z) (names ft names_v fv : list string)
    : list event :=
  [ EvLoad (loader_args D "training")
      {| class_names := names; file_paths := ft; ds_ops := [] |};
    EvLoad (loader_args D "validation")
      {| class_names := names_v; file_paths := fv; ds_ops := [] |};
    EvBackbone "imagenet" false (IMG_SIZE, 3%Z);
    EvModel (build_model (Z.of_nat (length names)));
    EvCompile (phase1_compiled E) ].

Definition phase1_fit (g : globals) (E : Z) : fit_call :=
  fit_call_of g (Some (phase1_compiled E)) E.

Definition phase2_fit (g : globals) (EF : Z) : fit_call :=
  fit_call_of g (Some phase2_compiled) EF.

Definition export_events (O : string) (g : globals) : list event :=
  EvSave O (g_model g) (Some phase2_compiled)
  :: EvOpen "class_names.txt" "w" "utf-8"
  :: name_writes (g_class_names g) ++ [EvClose "class_names.txt"].

(** The pieces of a text, put end to end. *)
Definition joined (pieces : list string) : string :=
  foldr String.append EmptyString pieces.

(** The models saved by a trace, with their paths. *)
Definition saved (tr : list event) : list (string * list node) :=
  omap (fun ev => match ev with
                  | EvSave p model _ => Some (p, model)
                  | _ => None
                  end) tr.

(** The epochs that ended in the fits of a trace.  The checkpoint callback
    acts at the end of an epoch: where no epoch ended, no checkpoint was
    written. *)
Definition epochs_ended (tr : list event) : nat :=
  sum_list (map (fun fitted => epochs_run (snd fitted)) (fits tr)).


(** The two lines of the diagnostic (lines 16-17). *)
Definition missing_line (h : Host) : string :=
  "Missing dataset directory: " +:+ DATA_DIR h.
Definition hint_line : string :=
  "Set PLANTVILLAGE_DIR to the root containing class subfolders.".

(** The lines of the script's own [print] calls that returned.  (What the
    libraries print themselves is not part of the trace.) *)
Definition printed (tr : list event) : list string :=
  omap (fun ev => match ev with EvPrint line => Some line | _ => None end) tr.

(** Actions that create or overwrite a file: a fit runs the checkpoint
    callback, [save] writes the model, [open(.., "w")] and [write] the text
    file. *)
Definition writes_artifact (ev : event) : bool :=
  match ev with
  | EvFit _ _ | EvSave _ _ _ | EvOpen _ _ _ | EvWrite _ _ => true
  | _ => false
  end.

(** The text the file at [path] holds once it has been closed without
    error: opening for writing truncates, every write appends.  (While the
    file is open, or after a flush that failed, it can hold less.) *)
Fixpoint file_text (path : string) (tr : list event) (acc : option string)
    : option string :=
  match tr with
  | [] => acc
  | EvOpen p _ _ :: rest =>
      file_text path rest (if String.eqb p path then Some EmptyString else acc)
  | EvWrite p data :: rest =>
      file_text path rest
        (if String.eqb p path then (fun t => t +:+ data) <$> acc else acc)
  | _ :: rest => file_text path rest acc
  end.

(** The lines of a text, each ended by a line feed (a last unterminated
    piece counts as a line too). *)
Fixpoint lines_from (cur : string) (s : string) : list string :=
  match s with
  | EmptyString => if String.eqb cur EmptyString then [] else [cur]
  | String c rest =>
      if Ascii.eqb c "010"%char then cur :: lines_from EmptyString rest
      else lines_from (cur +:+ String c EmptyString) rest
  end.

Definition lines (s : string) : list string := lines_from EmptyString s.

Fixpoint has_LF (s : string) : bool :=
  match s with
  | EmptyString => false
  | String c rest => Ascii.eqb c "010"%char || has_LF rest
  end.

(** Whether [needle] occurs in [hay]. *)
Fixpoint occurs (needle hay : string) : bool :=
  String.prefix needle hay
  || match hay with
     | EmptyString => false
     | String _ rest => occurs needle rest
     end.

(** ** The forward pass through the augmentation stage

    Keras runs a model with [training=True] in a training step and with
    [training=False] in a validation step or at inference; a random
    preprocessing layer transforms its input in the first case and hands it
    on unchanged in the second.  The transformations themselves belong to
    the host. *)
Section Forward.

Context {image : Type} (transform : aug_layer -> image -> image).




End Forward.

(** ** The helper that is never called

    Lines 80-81: [count_files] counts the entries [tf.io.gfile.listdir]
    reports for a directory.  That listing function is not among the calls
    the script makes, so it is a parameter here; [None] is the case in
    which it raises. *)
Definition count_files (gfile_listdir : string -> option (list string))
    (dir_path : string) : M Z :=
  match gfile_listdir dir_path with
  | Some entries => ret (Z.of_nat (length entries))
  | None => raise LibraryError
  end.

(** ** Where a run can stop

    The script is straight-line code: whatever the host answers, the trace
    of a run is the completed trace cut at the call that raised.  The three
    definitions below spell the possible cuts out. *)

(** Cut within lines 20-93: the first [j] actions; the loader's answers are
    known as far as the cut lies behind them. *)
Definition cut_preparing (h : Host) (D : string) (E : Z) (evs : list event) : Prop :=
  exists names ft names_v fv (j : nat),
    evs = take j (prepare_events D E names ft names_v fv) /\
    (1 <= j -> keras_load h (loader_args D "training") = Some (names, ft)) /\
    (2 <= j -> keras_load h (loader_args D "validation") = Some (names_v, fv)).

(** Cut within lines 119-123.  The [with] statement closes the file also
    when a write raises, so the close follows however many names got
    written; only a close that raises itself leaves the file open. *)
Definition cut_exporting (O : string) (g : globals) (post : list event) : Prop :=
  post = [] \/
  post = [EvSave O (g_model g) (Some phase2_compiled)] \/
  (exists k : nat,
      post = EvSave O (g_model g) (Some phase2_compiled)
             :: EvOpen "class_names.txt" "w" "utf-8"
             :: name_writes (take k (g_class_names g))
             ++ [EvClose "class_names.txt"]) \/
  post = EvSave O (g_model g) (Some phase2_compiled)
         :: EvOpen "class_names.txt" "w" "utf-8"
         :: name_writes (g_class_names g).

(** Cut after lines 20-93 went through: phase 1 returned, and the run stops
    at the second compile, at the second fit or within the export. *)
Definition cut_training (h : Host) (D : string) (E EF : Z) (O : string)
    (evs : list event) : Prop :=
  exists g names ft names_v fv hist1 tail,
    prepared h D g names ft names_v fv /\
    evs = prepare_events D E names ft names_v fv
          ++ EvFit (phase1_fit g E) hist1 :: tail /\
    (tail = [] \/
     tail = [EvCompile phase2_compiled] \/
     exists hist2 post,
       tail = EvCompile phase2_compiled :: EvFit (phase2_fit g EF) hist2 :: post /\
       cut_exporting O g post).

(** The events that mark a file of the script's own making. *)
Definition opens (tr : list event) : list (string * string * string) :=
  omap (fun ev => match ev with
                  | EvOpen p m enc => Some (p, m, enc)
                  | _ => None
                  end) tr.

Definition loads (tr : list event) : list load_args :=
  omap (fun ev => match ev with EvLoad args _ => Some args | _ => None end) tr.

(** Line feeds in a text. *)
Fixpoint count_LF (s : string) : nat :=
  match s with
  | EmptyString => 0
  | String c rest => (if Ascii.eqb c "010"%char then 1 else 0) + count_LF rest
  end.

End Train.

(** * The liveness service *)

Module Backend.

(** The JSON values the service sends: objects with string members, in
    the order of the Python dict. *)
Inductive json := JObject (members : list (string * string)).

(** Keyword arguments of [CORSMiddleware]. *)
Record cors := {
  allow_origins : list string;
  allow_credentials : bool;
  allow_methods : list string;
  allow_headers : list string }.

Record route := {
  r_methods : list string;
  r_path : string;
  endpoint : unit -> json }.

Record FastAPI := {
  title : string;
  user_middleware : list cors;
  routes : list route }.

(** [FastAPI(title=...)], as far as this module's own routes go.  (The
    framework adds routes of its own for the API documentation, under
    other paths; they are not modelled.) *)
Definition new_app (t : string) : FastAPI :=
  {| title := t; user_middleware := []; routes := [] |}.

(** [app.add_middleware(CORSMiddleware, ...)]: the newest middleware is the
    outermost. *)
Definition add_middleware (c : cors) (a : FastAPI) : FastAPI :=
  {| title := title a; user_middleware := c :: user_middleware a;
     routes := routes a |}.

(** [@app.get(path)] *)
Definition get (path : string) (f : unit -> json) (a : FastAPI) : FastAPI :=
  {| title := title a; user_middleware := user_middleware a;
     routes := routes a ++ [{| r_methods := ["GET"]; r_path := path;
                               endpoint := f |}] |}.

(** Lines 7-11. *)
Definition origins : list string :=
  [ "http://localhost:5173"; "http://localhost:3000"; "*" ].

(** Lines 13-19. *)
Definition cors_config : cors :=
  {| allow_origins := origins;
     allow_credentials := true;
     allow_methods := ["*"];
     allow_headers := ["*"] |}.

(** Lines 21-23. *)
Definition read_root (_ : unit) : json :=
  JObject [ ("message", "Welcome to AgriShield AI Backend");
            ("status", "active") ].

(** Lines 25-27. *)
Definition health_check (_ : unit) : json :=
  JObject [ ("status", "healthy") ].

(** The module, top to bottom. *)
Definition app : FastAPI :=
  get "/health" health_check
    (get "/" read_root
       (add_middleware cors_config
          (new_app "AgriShield AI Backend"))).

(** ** Serving a request

    Requests are the plain ones: a method, a path and possibly an [Origin]
    header.  (A CORS preflight is answered by the middleware alone, and a
    request with a cookie gets its origin mirrored; neither is
    modelled.) *)

Record request := {
  method : string;
  path : string;
  origin : option string }.

Record response := {
  status : Z;
  headers : list (string * string);
  body : json }.

Definition mem (x : string) (l : list string) : bool :=
  existsb (String.eqb x) l.

(** The router: the first route whose path and method match answers with
    its endpoint's value and status 200; a path that matches with another
    method is 405; anything else is 404. *)
Definition json_response (code : Z) (b : json) : response :=
  {| status := code; headers := [("content-type", "application/json")];
     body := b |}.

Fixpoint dispatch (rs : list route) (partial : bool) (req : request) : response :=
  match rs with
  | [] =>
      if partial
      then json_response 405 (JObject [("detail", "Method Not Allowed")])
      else json_response 404 (JObject [("detail", "Not Found")])
  | r :: rest =>
      if String.eqb (r_path r) (path req) then
        if mem (method req) (r_methods r)
        then json_response 200 (endpoint r tt)
        else dispatch rest true req
      else dispatch rest partial req
  end.

(** The wildcard entry stands for every origin. *)
Definition allow_all_origins (c : cors) : bool := mem "*" (allow_origins c).

Definition is_allowed_origin (c : cors) (o : string) : bool :=
  allow_all_origins c || mem o (allow_origins c).

(** The middleware on a plain request: without [Origin] it steps aside;
    with one it adds its headers to the inner response. *)
Definition cors_headers (c : cors) (o : string) : list (string * string) :=
  (if allow_all_origins c then [("access-control-allow-origin", "*")]
   else if is_allowed_origin c o then [("access-control-allow-origin", o)]
   else [])
  ++ (if allow_credentials c then [("access-control-allow-credentials", "true")]
      else []).

Definition cors_wrap (c : cors) (inner : request -> response) (req : request)
    : response :=
  match origin req with
  | None => inner req
  | Some o =>
      let r := inner req in
      {| status := status r;
         headers := headers r ++ cors_headers c o;
         body := body r |}
  end.

Definition handle (a : FastAPI) : request -> response :=
  fold_right cors_wrap (dispatch (routes a) false) (user_middleware a).

(** The service answers requests one after the other; nothing is carried
    from one request to the next. *)
Definition serve (a : FastAPI) (reqs : list request) : list response :=
  map (handle a) reqs.

End Backend.

(** * Concrete hosts

    Small hosts on which the script can be run by computation. *)

Module Synthetic.

Import Train.

(** The decimal fragment of [int]: an optional sign and ASCII digits. *)
Definition digit (c : ascii) : option Z :=
  let n := nat_of_ascii c in
  if (48 <=? n)%nat && (n <=? 57)%nat then Some (Z.of_nat (n - 48)) else None.

Fixpoint digits (s : string) (acc : Z) : option Z :=
  match s with
  | EmptyString => Some acc
  | String c rest =>
      match digit c with
      | Some d => digits rest (10 * acc + d)%Z
      | None => None
      end
  end.

Definition decimal_int (s : string) : option Z :=
  match s with
  | EmptyString => None
  | String "-"%char (String _ _ as rest) => Z.opp <$> digits rest 0%Z
  | String "+"%char (String _ _ as rest) => digits rest 0%Z
  | String "-"%char EmptyString | String "+"%char EmptyString => None
  | _ => digits s 0%Z
  end.

(** POSIX [os.path.join] on two components. *)
Definition posix_join (a b : string) : string :=
  match b with
  | String "/"%char _ => b
  | _ =>
      if String.eqb a EmptyString then b
      else if String.eqb (String.substring (String.length a - 1) 1 a) "/" then a +:+ b
      else a +:+ "/" +:+ b
  end.

(** A dataset root [/data] with three class directories that hold 10, 20
    and 30 image files. *)
Definition image_files (n : nat) : list string :=
  map (fun i : nat => "leaf" +:+ pretty i +:+ ".jpg") (seq 0 n).

Definition class_dirs : list string := ["blight"; "healthy"; "rust"].

Definition tree : gmap string (list string) :=
  <["/data" := class_dirs]>
  (<["/data/blight" := image_files 10]>
  (<["/data/healthy" := image_files 20]>
  (<["/data/rust" := image_files 30]> ∅))).

(** A loader that keeps the first four fifths of the files of every class
    for training and the rest for validation. *)
Definition subset_files (subset : string) (fs : list string) : list string :=
  let n := length fs in
  if String.eqb subset "training" then take (n - n / 5) fs
  else drop (n - n / 5) fs.

Definition loader (args : load_args) : option (list string * list string) :=
  match tree !! la_directory args with
  | Some names =>
      Some (names,
            flat_map (fun name =>
                        let d := posix_join (la_directory args) name in
                        match tree !! d with
                        | Some fs => map (posix_join d) (subset_files (la_subset args) fs)
                        | None => []
                        end) names)
  | None => None
  end.

(** A host on which every library call succeeds. *)
Definition host (env : gmap string string) : Host :=
  {| environ := env;
     py_int := decimal_int;
     os_path_isdir := fun p => bool_decide (is_Some (tree !! p));
     os_path_isfile := fun p => String.eqb (String.substring (String.length p - 4) 4 p) ".jpg";
     os_path_join := posix_join;
     os_listdir := fun p => tree !! p;
     keras_load := loader;
     keras_fit := fun _ call =>
       Some {| epochs_run := Z.to_nat (f_epochs call); stopped_early := false |};
     fault := fun _ _ => None |}.

(** A host whose fits stop early, after one epoch. *)
Definition host_early (env : gmap string string) : Host :=
  {| environ := env;
     py_int := decimal_int;
     os_path_isdir := os_path_isdir (host env);
     os_path_isfile := os_path_isfile (host env);
     os_path_join := posix_join;
     os_listdir := os_listdir (host env);
     keras_load := loader;
     keras_fit := fun _ _ => Some {| epochs_run := 1; stopped_early := true |};
     fault := fun _ _ => None |}.

(** The dataset at [/data], one epoch per phase. *)
Definition env_ok : gmap string string :=
  <["PLANTVILLAGE_DIR" := "/data"]>
  (<["EPOCHS" := "1"]> (<["EPOCHS_FINE" := "1"]> ∅)).

(** A dataset root that does not exist. *)
Definition env_missing : gmap string string :=
  <["PLANTVILLAGE_DIR" := "/nowhere"]> ∅.

(** A dataset root that does not exist, and an epoch count that is not a
    number. *)
Definition env_bad_epochs : gmap string string :=
  <["PLANTVILLAGE_DIR" := "/nowhere"]> (<["EPOCHS" := "ten"]> ∅).

Definition env_bad_epochs_fine : gmap string string :=
  <["PLANTVILLAGE_DIR" := "/data"]> (<["EPOCHS_FINE" := "5.0"]> ∅).

(** A host with nothing set in the environment and three classes under
    the default dataset root. *)
Definition default_tree : gmap string (list string) :=
  <["data/plantvillage" := class_dirs]>
  (<["data/plantvillage/blight" := image_files 2]>
  (<["data/plantvillage/healthy" := image_files 3]>
  (<["data/plantvillage/rust" := image_files 1]> ∅))).

Definition host_defaults : Host :=
  {| environ := ∅;
     py_int := decimal_int;
     os_path_isdir := fun p => bool_decide (is_Some (default_tree !! p));
     os_path_isfile := os_path_isfile (host ∅);
     os_path_join := posix_join;
     os_listdir := fun p => default_tree !! p;
     keras_load := fun args => (fun names => (names, [])) <$> default_tree !! la_directory args;
     keras_fit := keras_fit (host ∅);
     fault := fun _ _ => None |}.


(** A host whose standard output does not take the first diagnostic line. *)
Definition host_print_fails (env : gmap string string) : Host :=
  {| environ := env;
     py_int := decimal_int;
     os_path_isdir := os_path_isdir (host env);
     os_path_isfile := os_path_isfile (host env);
     os_path_join := posix_join;
     os_listdir := os_listdir (host env);
     keras_load := loader;
     keras_fit := keras_fit (host env);
     fault := fun _ ev =>
       match ev with
       | EvPrint _ => Some ValueError
       | _ => None
       end |}.

(** The dataset at [/data], no epoch in either phase. *)
Definition env_zero_epochs : gmap string string :=
  <["PLANTVILLAGE_DIR" := "/data"]>
  (<["EPOCHS" := "0"]> (<["EPOCHS_FINE" := "0"]> ∅)).

End Synthetic.

(** * Properties of the training script *)

Import Train.

Section Configuration.

Context (h : Host).

(** The three ways the first eighteen lines can go. *)
Lemma run_bad_EPOCHS :
  py_int h (EPOCHS_text h) = None ->
  run h = (Raise ValueError, initial).
Proof.
  intros Hbad. unfold run, main, bind, int.
  fold (EPOCHS_text h). rewrite Hbad. reflexivity.
Qed.

Lemma run_bad_EPOCHS_FINE (e : Z) :
  py_int h (EPOCHS_text h) = Some e ->
  py_int h (EPOCHS_FINE_text h) = None ->
  run h = (Raise ValueError, initial).
Proof.
  intros He Hbad. unfold run, main, bind, int.
  fold (EPOCHS_text h) (EPOCHS_FINE_text h). rewrite He. cbn.
  rewrite Hbad. reflexivity.
Qed.

Lemma run_missing_dir (e f : Z) :
  py_int h (EPOCHS_text h) = Some e ->
  py_int h (EPOCHS_FINE_text h) = Some f ->
  os_path_isdir h (DATA_DIR h) = false ->
  run h =
    match fault h [EvIsdir (DATA_DIR h) false] (EvPrint (missing_line h)) with
    | Some x => (Raise x, record [EvIsdir (DATA_DIR h) false] initial)
    | None =>
        match fault h [EvIsdir (DATA_DIR h) false; EvPrint (missing_line h)]
                (EvPrint hint_line) with
        | Some x =>
            (Raise x,
             record [EvIsdir (DATA_DIR h) false; EvPrint (missing_line h)] initial)
        | None =>
            (Exit 1,
             record [ EvIsdir (DATA_DIR h) false;
                      EvPrint (missing_line h);
                      EvPrint hint_line ] initial)
        end
    end.
Proof.
  intros He Hf Hdir. unfold run, main, bind, int, isdir, print, perform.
  fold (EPOCHS_text h) (EPOCHS_FINE_text h) (DATA_DIR h).
  rewrite He. cbn. rewrite Hf. cbn. rewrite Hdir. cbn.
  fold (missing_line h). fold hint_line.
  destruct (fault h _ (EvPrint (missing_line h))); [reflexivity|]. cbn.
  destruct (fault h _ (EvPrint hint_line)); reflexivity.
Qed.

(** The missing-directory path, case by case: both prints return and the
    script exits, or one of them raises. *)
Lemma missing_dir_cases (e f : Z) (r : result unit) (s : pstate) :
  py_int h (EPOCHS_text h) = Some e ->
  py_int h (EPOCHS_FINE_text h) = Some f ->
  os_path_isdir h (DATA_DIR h) = false ->
  run h = (r, s) ->
  (r = Exit 1 /\
   fault h [EvIsdir (DATA_DIR h) false] (EvPrint (missing_line h)) = None /\
   fault h [EvIsdir (DATA_DIR h) false; EvPrint (missing_line h)]
     (EvPrint hint_line) = None /\
   trace s = [ EvIsdir (DATA_DIR h) false; EvPrint (missing_line h);
               EvPrint hint_line ]) \/
  (exists x,
      r = Raise x /\
      (trace s = [EvIsdir (DATA_DIR h) false] \/
       trace s = [EvIsdir (DATA_DIR h) false; EvPrint (missing_line h)])).
Proof.
  intros He Hf Hdir. rewrite (run_missing_dir e f He Hf Hdir).
  destruct (fault h _ (EvPrint (missing_line h))) as [x|].
  { intros [= <- <-]. right. exists x. split; [done|]. by left. }
  destruct (fault h _ (EvPrint hint_line)) as [x|].
  { intros [= <- <-]. right. exists x. split; [done|]. by right. }
  intros [= <- <-]. by left.
Qed.

Lemma run_present_dir (e f : Z) :
  py_int h (EPOCHS_text h) = Some e ->
  py_int h (EPOCHS_FINE_text h) = Some f ->
  os_path_isdir h (DATA_DIR h) = true ->
  run h =
    train_and_export h (DATA_DIR h) e f (OUTPUT_PATH h)
      (record [EvIsdir (DATA_DIR h) true] initial).
Proof.
  intros He Hf Hdir. unfold run, main, bind, int, isdir.
  fold (EPOCHS_text h) (EPOCHS_FINE_text h) (DATA_DIR h) (OUTPUT_PATH h).
  rewrite He. cbn. rewrite Hf. cbn. rewrite Hdir. reflexivity.
Qed.

End Configuration.

Section Stages.

Context (h : Host).

(** The loops of lines 83-93 only read: they leave the state as it is and
    their result does not depend on it. *)
Lemma count_loop_state D names total counts s :
  count_loop h D names total counts s =
    (fst (count_loop h D names total counts initial), s).
Proof.
  revert total counts. induction names as [|name rest IH]; intros total counts.
  - reflexivity.
  - cbn [count_loop]. unfold bind, listdir.
    destruct (os_listdir h (os_path_join h D name)); cbn; [apply IH | reflexivity].
Qed.

Lemma weight_loop_state total n i counts cw s :
  weight_loop total n i counts cw s =
    (fst (weight_loop total n i counts cw initial), s).
Proof.
  revert i cw. induction counts as [|c rest IH]; intros i cw.
  - reflexivity.
  - cbn [weight_loop]. unfold bind, truediv.
    destruct (n * Z.max c 1 =? 0)%Z; cbn; [reflexivity | apply IH].
Qed.

Lemma class_weights_state D names n s :
  class_weights h D names n s = (fst (class_weights h D names n initial), s).
Proof.
  unfold class_weights, bind.
  rewrite (count_loop_state D names 0 [] s).
  destruct (fst (count_loop h D names 0 [] initial)) as [[t cs]|c|e] eqn:E.
  - rewrite (count_loop_state D names 0 [] initial), E. cbn.
    apply weight_loop_state.
  - rewrite (count_loop_state D names 0 [] initial), E. reflexivity.
  - rewrite (count_loop_state D names 0 [] initial), E. reflexivity.
Qed.


Lemma count_loop_spec D names cs total counts s :
  Forall2 (class_has_count h D) names cs ->
  count_loop h D names total counts s =
    (Ok ((total + total_of cs)%Z, counts ++ cs), s).
Proof.
  intros HF. revert total counts.
  induction HF as [|name c names cs (entries & Hls & ->) _ IH]; intros total counts.
  - cbn. unfold ret. by rewrite Z.add_0_r, app_nil_r.
  - cbn [count_loop]. unfold bind, listdir. rewrite Hls. cbn.
    rewrite IH. cbn [total_of foldr]. rewrite <- app_assoc. cbn.
    do 3 f_equal. fold (total_of cs). lia.
Qed.

Lemma count_loop_Ok D names total counts s t cs' s' :
  count_loop h D names total counts s = (Ok (t, cs'), s') ->
  exists cs, Forall2 (class_has_count h D) names cs /\
             t = (total + total_of cs)%Z /\ cs' = counts ++ cs.
Proof.
  revert total counts. induction names as [|name rest IH]; intros total counts.
  - cbn. intros [= <- <- <-]. exists []. split; [constructor|].
    cbn. split; [by rewrite Z.add_0_r | by rewrite app_nil_r].
  - cbn [count_loop]. unfold bind, listdir.
    destruct (os_listdir h (os_path_join h D name)) as [entries|] eqn:Hls;
      cbn; [|discriminate].
    intros (cs & HF & -> & ->)%IH.
    eexists (_ :: cs). split; [constructor; [by exists entries | exact HF] |].
    cbn [total_of foldr]. fold (total_of cs).
    split; [by rewrite Z.add_assoc | by rewrite <- app_assoc].
Qed.

Lemma weight_loop_spec total n counts :
  counts = [] \/ (0 < n)%Z ->
  forall i cw s,
  exists table,
    weight_loop total n i counts cw s = (Ok table, s) /\
    forall j : nat,
      table !! j =
        if decide (i <= j)%nat
        then match counts !! (j - i)%nat with
             | Some c => Some (weight total n c)
             | None => cw !! j
             end
        else cw !! j.
Proof.
  intros Hn. induction counts as [|c rest IH]; intros i cw s.
  - exists cw. split; [reflexivity|]. intros j. by case_decide.
  - assert (Hpos : (0 < n)%Z) by (destruct Hn; [discriminate | assumption]).
    cbn [weight_loop]. unfold bind, truediv.
    destruct (n * Z.max c 1 =? 0)%Z eqn:Hz; [apply Z.eqb_eq in Hz; nia|].
    cbn. destruct (IH (or_intror Hpos) (S i) (<[i := weight total n c]> cw) s)
      as (table & Hrun & Hlook).
    exists table. split; [exact Hrun|]. intros j. rewrite Hlook.
    destruct (decide (S i <= j)%nat) as [Hlt|Hge].
    + rewrite decide_True by lia.
      replace (j - i)%nat with (S (j - S i)) by lia. cbn.
      destruct (rest !! (j - S i)%nat); [reflexivity|].
      apply lookup_insert_ne. lia.
    + destruct (decide (i <= j)%nat) as [Hle|Hgt].
      * assert (j = i) as -> by lia.
        rewrite Nat.sub_diag. cbn. apply lookup_insert_eq.
      * apply lookup_insert_ne. lia.
Qed.


Lemma count_loop_no_exit D names total counts s code s' :
  count_loop h D names total counts s <> (Exit code, s').
Proof.
  revert total counts. induction names as [|name rest IH]; intros total counts.
  - discriminate.
  - cbn [count_loop]. unfold bind, listdir.
    destruct (os_listdir h _); cbn; [apply IH | discriminate].
Qed.

Lemma weight_loop_no_exit total n i counts cw s code s' :
  weight_loop total n i counts cw s <> (Exit code, s').
Proof.
  revert i cw. induction counts as [|c rest IH]; intros i cw.
  - discriminate.
  - cbn [weight_loop]. unfold bind, truediv.
    destruct (_ =? _)%Z; cbn; [discriminate | apply IH].
Qed.

Lemma class_weights_no_exit D names n s code s' :
  class_weights h D names n s <> (Exit code, s').
Proof.
  unfold class_weights, bind.
  destruct (count_loop h D names 0 [] s) as [[[t cs]|c|e] s1] eqn:Hc.
  - apply weight_loop_no_exit.
  - by apply count_loop_no_exit in Hc.
  - discriminate.
Qed.

Lemma fits_app tr1 tr2 : fits (tr1 ++ tr2) = fits tr1 ++ fits tr2.
Proof. apply omap_app. Qed.

(** Lines 20-93.  No fit happens there; the stage never calls [sys.exit];
    when it gets through, the model is compiled for phase 1 with the
    backbone frozen. *)
Lemma prepare_cases D E s r s' :
  prepare h D E s = (r, s') ->
  match r with
  | Exit _ => False
  | Raise _ => fits (trace s') = fits (trace s)
  | Ok g =>
      exists names ft names_v fv,
        prepared h D g names ft names_v fv /\
        s' = {| trace := trace s ++ prepare_events D E names ft names_v fv;
                base_model_trainable := false;
                model_compiled := Some (phase1_compiled E) |}
  end.
Proof.
  unfold prepare, load_datasets, image_dataset_from_directory, MobileNetV2,
    compile, perform, bind, raise, ret, log, get_trainable, set_trainable,
    set_compiled.
  destruct (keras_load h (loader_args D "training")) as [[names ft]|] eqn:Ht;
    [|by intros [= <- <-]].
  destruct (keras_load h (loader_args D "validation")) as [[names_v fv]|] eqn:Hv;
    [|intros [= <- <-]; cbn; by rewrite fits_app, app_nil_r].
  cbn -[class_weights sparse_cce].
  destruct (fault h _ (EvBackbone _ _ _));
    [intros [= <- <-]; cbn; by rewrite !fits_app, !app_nil_r|].
  cbn -[class_weights sparse_cce build_model].
  destruct (fault h _ (EvModel _));
    [intros [= <- <-]; cbn; by rewrite !fits_app, !app_nil_r|].
  cbn -[class_weights sparse_cce build_model].
  destruct (fault h _ (EvCompile _));
    [intros [= <- <-]; cbn; by rewrite !fits_app, !app_nil_r|].
  cbn -[class_weights sparse_cce].
  rewrite class_weights_state.
  destruct (fst (class_weights h D names _ initial)) as [cw|c|e] eqn:Hcw.
  - intros [= <- <-]. exists names, ft, names_v, fv. unfold prepared. cbn.
    repeat split; try done. by rewrite <- !app_assoc.
  - exfalso. eapply (class_weights_no_exit D names _ initial c initial).
    rewrite class_weights_state, Hcw. reflexivity.
  - intros [= <- <-]. cbn. by rewrite <- !app_assoc, !fits_app, !app_nil_r.
Qed.


Lemma record_record evs1 evs2 s :
  record evs2 (record evs1 s) = record (evs1 ++ evs2) s.
Proof. unfold record. cbn. by rewrite <- app_assoc. Qed.

Lemma record_nil s : record [] s = s.
Proof. destruct s. unfold record. cbn. by rewrite app_nil_r. Qed.

(** Lines 95-101: one fit with the current compiled configuration. *)
Lemma phase1_cases g E s r s' :
  phase1 h g E s = (r, s') ->
  (r = Raise LibraryError /\ s' = s) \/
  (exists hist,
      r = Ok hist /\
      s' = record [EvFit (fit_call_of g (model_compiled s) E) hist] s).
Proof.
  unfold phase1, fit, bind, get_compiled, get_trace, raise, log, ret.
  fold (fit_call_of g (model_compiled s) E).
  destruct (keras_fit h (trace s) _) as [hist|].
  - cbn. intros [= <- <-]. right. by exists hist.
  - intros [= <- <-]. by left.
Qed.

(** Lines 103-117: unfreeze, compile with the fixed rate, fit.  Nothing in
    these lines looks at how phase 1 went. *)
Lemma phase2_cases g EF s r s' :
  phase2 h g EF s = (r, s') ->
  (exists e,
      r = Raise e /\
      (trace s' = trace s \/ trace s' = trace s ++ [EvCompile phase2_compiled])) \/
  (exists hist,
      r = Ok hist /\
      s' = {| trace :=
                trace s ++
                [ EvCompile phase2_compiled;
                  EvFit (fit_call_of g (Some phase2_compiled) EF) hist ];
              base_model_trainable := true;
              model_compiled := Some phase2_compiled |}).
Proof.
  unfold phase2, compile, perform, fit, bind, get_compiled, get_trace,
    get_trainable, set_trainable, set_compiled, raise, log, ret, sparse_cce.
  cbn. fold phase2_compiled.
  destruct (fault h (trace s) (EvCompile phase2_compiled)) as [e|].
  - cbn. intros [= <- <-]. left. exists e. cbn. auto.
  - cbn. fold (fit_call_of g (Some phase2_compiled) EF).
    destruct (keras_fit h _ _) as [hist|].
    + cbn. intros [= <- <-]. right. exists hist.
      split; [done|]. unfold record. cbn. by rewrite <- app_assoc.
    + intros [= <- <-]. left. exists LibraryError. cbn. auto.
Qed.

(** Lines 122-123: the names are written in order, up to the first write
    that raises. *)
Lemma write_names_cases names s r s' :
  write_names h "class_names.txt" names s = (r, s') ->
  exists k,
    s' = record (name_writes (take k names)) s /\
    ((r = Ok tt /\ k = length names) \/ (exists e, r = Raise e)).
Proof.
  revert s. induction names as [|name rest IH]; intros s.
  - cbn. intros [= <- <-]. exists 0%nat. rewrite record_nil. auto.
  - cbn [write_names]. unfold bind, perform.
    destruct (fault h (trace s) _) as [e|].
    + intros [= <- <-]. exists 0%nat. rewrite record_nil. eauto.
    + cbn. intros (k & -> & Hk)%IH. exists (S k).
      rewrite record_record. split; [done|].
      destruct Hk as [[-> ->]|He]; auto.
Qed.

(** Lines 119-123: no fit, no [sys.exit]; when it gets through, the model
    has been saved and every name written. *)
Lemma export_cases g O s r s' :
  export h g O s = (r, s') ->
  exists evs,
    s' = record evs s /\
    fits evs = [] /\
    match r with
    | Exit _ => False
    | Raise _ => True
    | Ok _ =>
        evs = EvSave O (g_model g) (model_compiled s)
              :: EvOpen "class_names.txt" "w" "utf-8"
              :: name_writes (g_class_names g) ++ [EvClose "class_names.txt"]
    end.
Proof.
  assert (Hw : forall l, fits (name_writes l) = []) by (induction l; done).
  unfold export, save, with_open, perform, bind, get_compiled.
  cbn. destruct (fault h (trace s) (EvSave _ _ _)) as [e|].
  { intros [= <- <-]. exists []. by rewrite record_nil. }
  cbn. destruct (fault h _ (EvOpen _ _ _)) as [e|].
  { intros [= <- <-]. by eexists [_]. }
  cbn. destruct (write_names h _ _ _) as [[[]|c|e] s1] eqn:Hwr;
    apply write_names_cases in Hwr as (k & -> & Hk).
  - destruct Hk as [[_ ->]|[e [=]]]. rewrite firstn_all. cbn.
    destruct (fault h _ (EvClose _)) as [e|].
    + intros [= <- <-]. eexists. rewrite !record_record. split; [done|].
      split; [|done]. cbn. apply Hw.
    + intros [= <- <-]. eexists. rewrite !record_record. split; [done|].
      split; [|done]. cbn. rewrite fits_app, Hw. done.
  - destruct Hk as [[[=] _]|[e [=]]].
  - intros [= <- <-]. eexists. rewrite !record_record. split; [done|].
    split; [|done]. cbn. rewrite !fits_app, Hw. done.
Qed.


(** Lines 20-123 as a whole.  Either the run stops before the first fit
    returns; or phase 1 completes and the run goes straight into phase 2,
    where only a library call that raises can stop it. *)
Lemma train_and_export_cases D E EF O s r s' :
  train_and_export h D E EF O s = (r, s') ->
  ((exists e, r = Raise e) /\ fits (trace s') = fits (trace s)) \/
  (exists g names ft names_v fv hist1,
      prepared h D g names ft names_v fv /\
      let pre := trace s ++ prepare_events D E names ft names_v fv in
      ((exists e, r = Raise e) /\
       (trace s' = pre ++ [EvFit (phase1_fit g E) hist1] \/
        trace s' = pre ++ [EvFit (phase1_fit g E) hist1;
                           EvCompile phase2_compiled])) \/
      (exists hist2 post,
          trace s' = pre ++ [ EvFit (phase1_fit g E) hist1;
                              EvCompile phase2_compiled;
                              EvFit (phase2_fit g EF) hist2 ] ++ post /\
          fits post = [] /\
          match r with
          | Exit _ => False
          | Raise _ => True
          | Ok _ => post = export_events O g
          end)).
Proof.
  unfold train_and_export, bind.
  destruct (prepare h D E s) as [[g|c|e] s1] eqn:Hp;
    apply prepare_cases in Hp.
  2: done.
  2: { intros [= <- <-]. left. eauto. }
  destruct Hp as (names & ft & names_v & fv & Hg & ->).
  destruct (phase1 h g E _) as [r1 s2] eqn:H1.
  apply phase1_cases in H1 as [[-> ->]|(hist1 & -> & ->)].
  { intros [= <- <-]. left. split; [eauto|]. cbn.
    by rewrite fits_app, app_nil_r. }
  cbn [model_compiled]. fold (phase1_fit g E).
  destruct (phase2 h g EF _) as [r2 s3] eqn:H2.
  apply phase2_cases in H2 as [(e' & -> & Ht)|(hist2 & -> & ->)].
  { intros [= <- <-]. right. exists g, names, ft, names_v, fv, hist1.
    split; [done|]. left. split; [eauto|]. cbn in Ht. cbn.
    destruct Ht as [->| ->]; [left | right]; by rewrite <- !app_assoc. }
  fold (phase2_fit g EF).
  destruct (export h g O _) as [r' s4] eqn:He.
  apply export_cases in He as (evs & -> & Hf & Hr). cbn in Hr.
  intros [= <- <-]. right. exists g, names, ft, names_v, fv, hist1.
  split; [done|]. right. exists hist2, evs. cbn.
  split; [by rewrite <- !app_assoc|]. split; [done|].
  destruct r' as [[]|c|e]; done.
Qed.

(** Lines 95-101 again: whether the fit returns is the library's answer to
    this very call, at this point of the run. *)
Lemma phase1_decided g E s r s' :
  phase1 h g E s = (r, s') ->
  match keras_fit h (trace s) (fit_call_of g (model_compiled s) E) with
  | None => r = Raise LibraryError /\ s' = s
  | Some hist =>
      r = Ok hist /\
      s' = record [EvFit (fit_call_of g (model_compiled s) E) hist] s
  end.
Proof.
  unfold phase1, fit, bind, get_compiled, get_trace, raise, log, ret.
  fold (fit_call_of g (model_compiled s) E).
  destruct (keras_fit h (trace s) _) as [hist|].
  - cbn. by intros [= <- <-].
  - by intros [= <- <-].
Qed.

(** Lines 103-117 again: the backbone is unfrozen and the second compile
    attempted whatever the state, and the second fit whenever that compile
    returns. *)
Lemma phase2_decided g EF s r s' :
  phase2 h g EF s = (r, s') ->
  base_model_trainable s' = true /\
  match fault h (trace s) (EvCompile phase2_compiled) with
  | Some x => r = Raise x /\ trace s' = trace s
  | None =>
      match keras_fit h (trace s ++ [EvCompile phase2_compiled])
              (fit_call_of g (Some phase2_compiled) EF) with
      | None =>
          r = Raise LibraryError /\
          trace s' = trace s ++ [EvCompile phase2_compiled]
      | Some hist =>
          r = Ok hist /\
          s' = {| trace :=
                    trace s ++
                    [ EvCompile phase2_compiled;
                      EvFit (fit_call_of g (Some phase2_compiled) EF) hist ];
                  base_model_trainable := true;
                  model_compiled := Some phase2_compiled |}
      end
  end.
Proof.
  unfold phase2, compile, perform, fit, bind, get_compiled, get_trace,
    get_trainable, set_trainable, set_compiled, raise, log, ret, sparse_cce.
  cbn. fold phase2_compiled.
  destruct (fault h (trace s) (EvCompile phase2_compiled)) as [e|].
  - cbn. by intros [= <- <-].
  - cbn. fold (fit_call_of g (Some phase2_compiled) EF).
    destruct (keras_fit h _ _) as [hist|].
    + cbn. intros [= <- <-]. split; [done|]. split; [done|].
      unfold record. cbn. by rewrite <- app_assoc.
    + by intros [= <- <-].
Qed.

(** Lines 20-123, from the first fit on.  A run in which a fit returned got
    through lines 20-93 and through the first fit; what follows is decided
    by the library alone: the backbone is unfrozen, the second compile is
    attempted, and the run stops there exactly when that compile raises;
    otherwise the second fit is attempted, and the run stops there exactly
    when that fit raises. *)
Lemma train_and_export_decided D E EF O s r s' :
  train_and_export h D E EF O s = (r, s') ->
  fits (trace s') <> fits (trace s) ->
  exists g names ft names_v fv hist1,
    prepared h D g names ft names_v fv /\
    let pre := trace s ++ prepare_events D E names ft names_v fv in
    keras_fit h pre (phase1_fit g E) = Some hist1 /\
    base_model_trainable s' = true /\
    match fault h (pre ++ [EvFit (phase1_fit g E) hist1])
            (EvCompile phase2_compiled) with
    | Some x => r = Raise x /\ trace s' = pre ++ [EvFit (phase1_fit g E) hist1]
    | None =>
        match keras_fit h (pre ++ [ EvFit (phase1_fit g E) hist1;
                                    EvCompile phase2_compiled ])
                (phase2_fit g EF) with
        | None =>
            r = Raise LibraryError /\
            trace s' = pre ++ [ EvFit (phase1_fit g E) hist1;
                                EvCompile phase2_compiled ]
        | Some hist2 =>
            exists post,
              trace s' = pre ++ [ EvFit (phase1_fit g E) hist1;
                                  EvCompile phase2_compiled;
                                  EvFit (phase2_fit g EF) hist2 ] ++ post /\
              fits post = []
        end
    end.
Proof.
  unfold train_and_export, bind.
  destruct (prepare h D E s) as [[g|c|e] s1] eqn:Hp;
    apply prepare_cases in Hp.
  2: done.
  2: { by intros [= <- <-]. }
  destruct Hp as (names & ft & names_v & fv & Hg & ->).
  destruct (phase1 h g E _) as [r1 s2] eqn:H1.
  apply phase1_decided in H1. cbn [trace model_compiled] in H1.
  fold (phase1_fit g E) in H1.
  destruct (keras_fit h _ (phase1_fit g E)) as [hist1|] eqn:Hfit1.
  2: { destruct H1 as [-> ->]. intros [= <- <-] Hno. exfalso. apply Hno.
       cbn. by rewrite fits_app, app_nil_r. }
  destruct H1 as [-> ->]. intros Hrun _.
  exists g, names, ft, names_v, fv, hist1. split; [done|].
  cbn zeta. split; [exact Hfit1|].
  destruct (phase2 h g EF _) as [r2 s3] eqn:H2.
  apply phase2_decided in H2 as [Hunfrozen H2]. cbn [record trace] in H2.
  fold (phase2_fit g EF) in H2.
  set (pre := trace s ++ prepare_events D E names ft names_v fv) in *.
  rewrite <- !app_assoc in H2. cbn [app] in H2.
  destruct (fault h _ (EvCompile phase2_compiled)) as [x|].
  { destruct H2 as [-> Htr]. by injection Hrun as <- <-. }
  destruct (keras_fit h _ (phase2_fit g EF)) as [hist2|].
  2: { destruct H2 as [-> Htr]. by injection Hrun as <- <-. }
  destruct H2 as [-> ->].
  destruct (export h g O _) as [r' s4] eqn:He.
  apply export_cases in He as (evs & -> & Hf & _).
  injection Hrun as <- <-. split; [done|]. exists evs. cbn [record trace].
  by rewrite <- !app_assoc.
Qed.

End Stages.

(** ** Runs that complete *)

(** A run that ends normally found the directory, parsed both epoch counts
    and went through every line: its trace is fixed up to what the host
    answered. *)
Lemma completed_run (h : Host) (s : pstate) :
  run h = (Ok tt, s) ->
  os_path_isdir h (DATA_DIR h) = true /\
  exists e f g names ft names_v fv hist1 hist2,
    py_int h (EPOCHS_text h) = Some e /\
    py_int h (EPOCHS_FINE_text h) = Some f /\
    prepared h (DATA_DIR h) g names ft names_v fv /\
    trace s =
      EvIsdir (DATA_DIR h) true
      :: prepare_events (DATA_DIR h) e names ft names_v fv
      ++ [ EvFit (phase1_fit g e) hist1;
           EvCompile phase2_compiled;
           EvFit (phase2_fit g f) hist2 ]
      ++ export_events (OUTPUT_PATH h) g.
Proof.
  destruct (py_int h (EPOCHS_text h)) as [e|] eqn:He.
  2: { by rewrite (run_bad_EPOCHS h He). }
  destruct (py_int h (EPOCHS_FINE_text h)) as [f|] eqn:Hf.
  2: { by rewrite (run_bad_EPOCHS_FINE h e He Hf). }
  destruct (os_path_isdir h (DATA_DIR h)) eqn:Hdir.
  2: { intros Hrun.
       by destruct (missing_dir_cases h e f _ _ He Hf Hdir Hrun)
         as [[[=] _]|(x & [=] & _)]. }
  rewrite (run_present_dir h e f He Hf Hdir). intros Hrun. split; [done|].
  apply train_and_export_cases in Hrun
    as [[[x [=]] _]|(g & names & ft & names_v & fv & hist1 & Hg & Hrun)].
  cbn in Hrun.
  destruct Hrun as [[[x [=]] _]|(hist2 & post & Htr & _ & ->)].
  exists e, f, g, names, ft, names_v, fv, hist1, hist2.
  do 3 (split; [done|]). by rewrite Htr.
Qed.

(** ** The text of the names file *)

Lemma append_assoc (a b c : string) : (a +:+ b) +:+ c = a +:+ (b +:+ c).
Proof.
  induction a as [|x a IH]; [reflexivity|].
  change (String x ((a +:+ b) +:+ c) = String x (a +:+ (b +:+ c))).
  by f_equal.
Qed.

Lemma append_empty_r (a : string) : a +:+ EmptyString = a.
Proof.
  induction a as [|x a IH]; [reflexivity|].
  change (String x (a +:+ EmptyString) = String x a). by f_equal.
Qed.



Lemma file_text_name_writes (names : list string) (rest : list event) (t : string) :
  file_text "class_names.txt" (name_writes names ++ rest) (Some t) =
  file_text "class_names.txt" rest
    (Some (t +:+ joined (map (fun name => name +:+ LF) names))).
Proof.
  revert t. induction names as [|name names IH]; intros t.
  - cbn. by rewrite append_empty_r.
  - cbn [name_writes map app file_text]. cbn [String.eqb Ascii.eqb Bool.eqb].
    cbn [fmap option_fmap option_map]. fold (name_writes names).
    rewrite IH. cbn [joined foldr]. by rewrite append_assoc.
Qed.

Lemma written_name_writes (names : list string) :
  written "class_names.txt" (name_writes names)
  = map (fun name => name +:+ LF) names.
Proof. induction names as [|name names IH]; [reflexivity|]. cbn. by f_equal. Qed.

Lemma saved_name_writes (names : list string) : saved (name_writes names) = [].
Proof. induction names; done. Qed.

Lemma fits_name_writes (names : list string) : fits (name_writes names) = [].
Proof. induction names; done. Qed.

(** What a completed run leaves in the names file and as saved model. *)
Lemma completed_run_outputs (h : Host) (O : string) (pre : list event)
    (g : globals) :
  saved pre = [] ->
  saved (pre ++ export_events O g) = [(O, g_model g)] /\
  file_text "class_names.txt" (pre ++ export_events O g) None
    = Some (joined (map (fun name => name +:+ LF) (g_class_names g))) /\
  written "class_names.txt" (pre ++ export_events O g)
    = written "class_names.txt" pre
      ++ map (fun name => name +:+ LF) (g_class_names g).
Proof.
  intros Hpre. unfold export_events. split; [|split].
  - unfold saved in *. rewrite omap_app, Hpre. cbn. rewrite omap_app.
    fold (saved (name_writes (g_class_names g))).
    by rewrite saved_name_writes.
  - assert (Hskip : forall tr acc,
               file_text "class_names.txt"
                 (tr ++ EvSave O (g_model g) (Some phase2_compiled)
                     :: EvOpen "class_names.txt" "w" "utf-8"
                     :: name_writes (g_class_names g) ++ [EvClose "class_names.txt"])
                 acc
               = Some (joined (map (fun name => name +:+ LF) (g_class_names g)))).
    { induction tr as [|ev tr IH]; intros acc.
      - cbn. by rewrite file_text_name_writes.
      - destruct ev; cbn [app file_text]; apply IH. }
    apply Hskip.
  - unfold written. rewrite omap_app. f_equal. cbn. rewrite omap_app.
    fold (written "class_names.txt" (name_writes (g_class_names g))).
    rewrite written_name_writes. cbn. by rewrite app_nil_r.
Qed.

(** ** Configuration errors *)

(** C10.  If [EPOCHS] or [EPOCHS_FINE] is set to a string that [int] does
    not accept, the script ends with an uncaught [ValueError] before the
    directory check has run: the exit status is not zero, nothing has been
    printed (no missing-directory diagnostic) and nothing has been done at
    all (no directory check, no artifact). *)
Theorem unparsable_epochs_abort_before_check (h : Host) (key text : string) :
  key = "EPOCHS" \/ key = "EPOCHS_FINE" ->
  environ h !! key = Some text ->
  py_int h text = None ->
  fst (run h) = Raise ValueError /\
  exit_status (fst (run h)) <> 0%Z /\
  trace (snd (run h)) = [] /\
  printed (trace (snd (run h))) = [].
Proof.
  intros Hkey Hset Hbad.
  assert (Hrun : run h = (Raise ValueError, initial)).
  { destruct (py_int h (EPOCHS_text h)) as [e|] eqn:He.
    - destruct Hkey as [-> | ->].
      + unfold EPOCHS_text, environ_get in He. rewrite Hset in He.
        cbn in He. congruence.
      + apply (run_bad_EPOCHS_FINE h e He).
        unfold EPOCHS_FINE_text, environ_get. by rewrite Hset.
    - by apply run_bad_EPOCHS. }
  rewrite Hrun. done.
Qed.

Lemma unparsable_epochs_abort_before_check_witness :
  fst (run (Synthetic.host Synthetic.env_bad_epochs)) = Raise ValueError /\
  exit_status (fst (run (Synthetic.host Synthetic.env_bad_epochs))) <> 0%Z /\
  trace (snd (run (Synthetic.host Synthetic.env_bad_epochs))) = [] /\
  printed (trace (snd (run (Synthetic.host Synthetic.env_bad_epochs)))) = [].
Proof.
  apply (unparsable_epochs_abort_before_check
           (Synthetic.host Synthetic.env_bad_epochs) "EPOCHS" "ten").
  - left. reflexivity.
  - vm_compute. reflexivity.
  - vm_compute. reflexivity.
Defined.

(** ** The directory check *)

(** C4, as stated, fails in four ways.  With a missing dataset root and
    [EPOCHS=ten] the script stops at line 11 and never prints the
    diagnostic.  With a missing root, both counts well-formed and a
    standard output that does not take the first line, line 16 raises:
    nothing is printed and [sys.exit] is not reached.  With the root in
    place and [EPOCHS=0], [EPOCHS_FINE=0] the run completes although no
    epoch ended in either fit, so that the callback has written no
    checkpoint.  And a run that completes still ends with status 120 when
    the interpreter's last flush fails. *)
Lemma directory_check_claim_fails :
  (os_path_isdir (Synthetic.host Synthetic.env_bad_epochs)
     (DATA_DIR (Synthetic.host Synthetic.env_bad_epochs)) = false /\
   ~ (exists line,
         line ∈ printed (trace (snd (run (Synthetic.host Synthetic.env_bad_epochs)))) /\
         occurs "PLANTVILLAGE_DIR" line = true)) /\
  (os_path_isdir (Synthetic.host_print_fails Synthetic.env_missing)
     (DATA_DIR (Synthetic.host_print_fails Synthetic.env_missing)) = false /\
   py_int (Synthetic.host_print_fails Synthetic.env_missing)
     (EPOCHS_text (Synthetic.host_print_fails Synthetic.env_missing)) = Some 10%Z /\
   py_int (Synthetic.host_print_fails Synthetic.env_missing)
     (EPOCHS_FINE_text (Synthetic.host_print_fails Synthetic.env_missing)) = Some 5%Z /\
   fst (run (Synthetic.host_print_fails Synthetic.env_missing)) = Raise ValueError /\
   printed (trace (snd (run (Synthetic.host_print_fails Synthetic.env_missing)))) = []) /\
  (os_path_isdir (Synthetic.host Synthetic.env_zero_epochs)
     (DATA_DIR (Synthetic.host Synthetic.env_zero_epochs)) = true /\
   fst (run (Synthetic.host Synthetic.env_zero_epochs)) = Ok tt /\
   epochs_ended (trace (snd (run (Synthetic.host Synthetic.env_zero_epochs)))) = 0%nat) /\
  (fst (run (Synthetic.host Synthetic.env_ok)) = Ok tt /\
   process_status true (fst (run (Synthetic.host Synthetic.env_ok))) <> 0%Z).
Proof.
  split; [|split; [|split]].
  - split; [vm_compute; reflexivity|].
    intros (line & Hin & _). vm_compute in Hin. by apply elem_of_nil in Hin.
  - repeat split; vm_compute; reflexivity.
  - repeat split; vm_compute; reflexivity.
  - split; [vm_compute; reflexivity | vm_compute; discriminate].
Qed.

(** C4, amended.  If the dataset root does not exist, the process ends
    with a non-zero status and the run performs no action that creates a
    file.  When moreover both epoch counts parse and the two [print] calls
    return, the run ends through [sys.exit(1)] after printing the two
    lines, the second of which names [PLANTVILLAGE_DIR].  If the run
    completes, the directory existed; the status is zero when the
    interpreter's last flush succeeds and 120 when it fails; and the run
    has gone through both fits (each with the checkpoint callback on
    [best_model.h5], which acts when an epoch ends), saved the model at
    [OUTPUT_PATH] and left the class names in [class_names.txt]. *)
Theorem dataset_dir_check (h : Host) :
  (os_path_isdir h (DATA_DIR h) = false ->
     (forall flush_failed, process_status flush_failed (fst (run h)) <> 0%Z) /\
     List.filter writes_artifact (trace (snd (run h))) = [] /\
     forall e f,
       py_int h (EPOCHS_text h) = Some e ->
       py_int h (EPOCHS_FINE_text h) = Some f ->
       fault h [EvIsdir (DATA_DIR h) false] (EvPrint (missing_line h)) = None ->
       fault h [EvIsdir (DATA_DIR h) false; EvPrint (missing_line h)]
         (EvPrint hint_line) = None ->
       fst (run h) = Exit 1 /\
       printed (trace (snd (run h))) = [missing_line h; hint_line] /\
       occurs "PLANTVILLAGE_DIR" hint_line = true) /\
  (fst (run h) = Ok tt ->
     os_path_isdir h (DATA_DIR h) = true /\
     process_status false (fst (run h)) = 0%Z /\
     process_status true (fst (run h)) = 120%Z /\
     exists e f g names ft names_v fv hist1 hist2,
       py_int h (EPOCHS_text h) = Some e /\
       py_int h (EPOCHS_FINE_text h) = Some f /\
       prepared h (DATA_DIR h) g names ft names_v fv /\
       trace (snd (run h)) =
         EvIsdir (DATA_DIR h) true
         :: prepare_events (DATA_DIR h) e names ft names_v fv
         ++ [ EvFit (phase1_fit g e) hist1;
              EvCompile phase2_compiled;
              EvFit (phase2_fit g f) hist2 ]
         ++ export_events (OUTPUT_PATH h) g /\
       ModelCheckpoint "best_model.h5" "val_accuracy" true
         ∈ f_callbacks (phase1_fit g e) /\
       ModelCheckpoint "best_model.h5" "val_accuracy" true
         ∈ f_callbacks (phase2_fit g f) /\
       saved (trace (snd (run h)))
         = [(OUTPUT_PATH h, build_model (Z.of_nat (length names)))] /\
       file_text "class_names.txt" (trace (snd (run h))) None
         = Some (joined (map (fun name => name +:+ LF) names))).
Proof.
  split.
  - intros Hdir.
    destruct (py_int h (EPOCHS_text h)) as [e|] eqn:He.
    2: { rewrite (run_bad_EPOCHS h He). cbn.
         split; [by intros []|]. split; [done|]. by intros ? ? [=]. }
    destruct (py_int h (EPOCHS_FINE_text h)) as [f|] eqn:Hf.
    2: { rewrite (run_bad_EPOCHS_FINE h e He Hf). cbn.
         split; [by intros []|]. split; [done|]. by intros ? ? _ [=]. }
    rewrite (run_missing_dir h e f He Hf Hdir).
    destruct (fault h _ (EvPrint (missing_line h))) as [x|].
    { cbn. split; [by intros []|]. split; [done|]. by intros ? ? _ _ [=]. }
    destruct (fault h _ (EvPrint hint_line)) as [x|].
    { cbn. split; [by intros []|]. split; [done|]. by intros ? ? _ _ _ [=]. }
    cbn. split; [by intros []|]. split; [done|]. intros ? ? _ _ _ _.
    repeat split.
  - destruct (run h) as [r s] eqn:Hrun. cbn [fst snd]. intros ->.
    apply completed_run in Hrun
      as (Hdir & e & f & g & names & ft & names_v & fv & hist1 & hist2
          & He & Hf & Hg & Htr).
    split; [done|]. split; [done|]. split; [done|].
    exists e, f, g, names, ft, names_v, fv, hist1, hist2.
    do 4 (split; [done|]). split; [cbn; set_solver|]. split; [cbn; set_solver|].
    assert (Hnames : g_class_names g = names) by apply Hg.
    assert (Hmodel : g_model g = build_model (Z.of_nat (length names))) by apply Hg.
    rewrite Htr.
    destruct (completed_run_outputs h (OUTPUT_PATH h)
                (EvIsdir (DATA_DIR h) true
                 :: prepare_events (DATA_DIR h) e names ft names_v fv
                 ++ [ EvFit (phase1_fit g e) hist1; EvCompile phase2_compiled;
                      EvFit (phase2_fit g f) hist2 ]) g)
      as (Hs & Ht & _); [done|].
    rewrite <- app_comm_cons, <- app_assoc in Hs, Ht.
    by rewrite Hs, Ht, Hnames, Hmodel.
Qed.

Lemma dataset_dir_check_witness :
  process_status false (fst (run (Synthetic.host Synthetic.env_missing))) <> 0%Z /\
  printed (trace (snd (run (Synthetic.host Synthetic.env_missing))))
    = [ missing_line (Synthetic.host Synthetic.env_missing); hint_line ] /\
  process_status false (fst (run (Synthetic.host Synthetic.env_ok))) = 0%Z.
Proof.
  destruct (dataset_dir_check (Synthetic.host Synthetic.env_missing))
    as [Hmissing _].
  destruct Hmissing as (Hstatus & _ & Hprint); [vm_compute; reflexivity|].
  destruct (Hprint 10%Z 5%Z) as (_ & Hlines & _); try (vm_compute; reflexivity).
  split; [apply Hstatus|]. split; [exact Hlines|].
  apply (proj2 (dataset_dir_check (Synthetic.host Synthetic.env_ok))).
  vm_compute. reflexivity.
Defined.

(** ** Class weights *)

(** C2.  For class directories holding [counts] regular files, lines 83-93
    run without raising and leave a table that maps every class index [i]
    to [total / (num_classes * max(count_i, 1))], where [total] is the sum
    of the counts and [num_classes] the number of classes; the table has no
    other entry. *)
Theorem class_weight_table (h : Host) (D : string) (names : list string)
    (counts : list Z) (s : pstate) :
  Forall2 (class_has_count h D) names counts ->
  exists table : gmap nat Q,
    class_weights h D names (Z.of_nat (length names)) s = (Ok table, s) /\
    forall i : nat,
      table !! i =
        (fun c => (inject_Z (total_of counts)
                   / inject_Z (Z.of_nat (length names) * Z.max c 1))%Q)
          <$> counts !! i.
Proof.
  intros HF. unfold class_weights, bind.
  rewrite (count_loop_spec h D names counts 0 [] s HF). cbn [fst snd app].
  destruct (weight_loop_spec (0 + total_of counts) (Z.of_nat (length names))
              counts) with (i := 0%nat) (cw := (∅ : gmap nat Q)) (s := s)
    as (table & Hrun & Hlook).
  { destruct HF; [by left | right; cbn; lia]. }
  exists table. split; [exact Hrun|].
  intros i. rewrite Hlook, decide_True by lia.
  rewrite Nat.sub_0_r, Z.add_0_l.
  destruct (counts !! i); [reflexivity | apply lookup_empty].
Qed.

(** The synthetic dataset of the specification: three classes with 10, 20
    and 30 files get the weights [60/(3*10)], [60/(3*20)] and [60/(3*30)],
    that is 2, 1 and 2/3. *)
Lemma class_weight_table_witness :
  exists table : gmap nat Q,
    class_weights (Synthetic.host Synthetic.env_ok) "/data"
      ["blight"; "healthy"; "rust"] 3 initial = (Ok table, initial) /\
    table !! 0%nat = Some (inject_Z 60 / inject_Z (3 * 10))%Q /\
    table !! 1%nat = Some (inject_Z 60 / inject_Z (3 * 20))%Q /\
    table !! 2%nat = Some (inject_Z 60 / inject_Z (3 * 30))%Q /\
    table !! 3%nat = None /\
    (inject_Z 60 / inject_Z (3 * 10) == 2)%Q /\
    (inject_Z 60 / inject_Z (3 * 20) == 1)%Q /\
    (inject_Z 60 / inject_Z (3 * 30) == 2 # 3)%Q.
Proof.
  destruct (class_weight_table (Synthetic.host Synthetic.env_ok) "/data"
              ["blight"; "healthy"; "rust"] [10; 20; 30]%Z initial)
    as (table & Hrun & Hlook).
  { repeat constructor;
      (eexists; split; [vm_compute; reflexivity | vm_compute; reflexivity]). }
  exists table. split; [exact Hrun|].
  rewrite !Hlook. repeat split.
Defined.

(** ** The two phases *)

(** The table that reaches the fits is the one of lines 83-93. *)
Lemma class_weights_Ok (h : Host) (D : string) (names : list string)
    (table : gmap nat Q) :
  fst (class_weights h D names (Z.of_nat (length names)) initial) = Ok table ->
  exists counts,
    Forall2 (class_has_count h D) names counts /\
    forall i : nat,
      table !! i
      = weight (total_of counts) (Z.of_nat (length names)) <$> counts !! i.
Proof.
  unfold class_weights, bind.
  destruct (count_loop h D names 0 [] initial) as [[[t cs]|c|e] s1] eqn:Hc;
    [|discriminate..].
  apply count_loop_Ok in Hc as (counts & HF & -> & ->).
  cbn [fst snd app].
  destruct (weight_loop_spec (0 + total_of counts) (Z.of_nat (length names))
              counts) with (i := 0%nat) (cw := (∅ : gmap nat Q)) (s := s1)
    as (table' & Hrun & Hlook).
  { destruct HF; [by left | right; cbn; lia]. }
  rewrite Hrun. cbn. intros [= <-]. exists counts. split; [exact HF|].
  intros i. rewrite Hlook, decide_True by lia.
  rewrite Nat.sub_0_r, Z.add_0_l.
  destruct (counts !! i); [reflexivity | apply lookup_empty].
Qed.

(** C3.  A run that completes fits the model exactly twice.  Both times the
    compiled loss is sparse categorical cross-entropy with label smoothing
    0.1, and both fits receive the same [class_weight] argument: the table
    of lines 83-93, which maps class [i] to
    [total / (num_classes * max(count_i, 1))]. *)
Theorem both_phases_same_loss_and_class_weight (h : Host) (s : pstate) :
  run h = (Ok tt, s) ->
  exists call1 hist1 call2 hist2 names ft counts,
    fits (trace s) = [(call1, hist1); (call2, hist2)] /\
    c_loss <$> f_compiled call1 = Some (SparseCategoricalCrossentropy 0.1) /\
    c_loss <$> f_compiled call2 = Some (SparseCategoricalCrossentropy 0.1) /\
    f_class_weight call2 = f_class_weight call1 /\
    keras_load h (loader_args (DATA_DIR h) "training") = Some (names, ft) /\
    Forall2 (class_has_count h (DATA_DIR h)) names counts /\
    forall i : nat,
      f_class_weight call1 !! i
      = weight (total_of counts) (Z.of_nat (length names)) <$> counts !! i.
Proof.
  intros Hrun.
  apply completed_run in Hrun
    as (Hdir & e & f & g & names & ft & names_v & fv & hist1 & hist2
        & He & Hf & Hg & Htr).
  destruct Hg as (Hlt & Hlv & Hcw & Hnames & Hnum & Hmodel & Htrain & Hval).
  apply class_weights_Ok in Hcw as (counts & HF & Hlook).
  exists (phase1_fit g e), hist1, (phase2_fit g f), hist2, names, ft, counts.
  split.
  { rewrite Htr. unfold export_events. cbn.
    by rewrite fits_app, fits_name_writes. }
  do 5 (split; [done|]). exact Hlook.
Qed.

Lemma both_phases_same_loss_and_class_weight_witness :
  exists call1 hist1 call2 hist2,
    fits (trace (snd (run (Synthetic.host Synthetic.env_ok))))
      = [(call1, hist1); (call2, hist2)] /\
    c_loss <$> f_compiled call1 = Some (SparseCategoricalCrossentropy 0.1) /\
    c_loss <$> f_compiled call2 = Some (SparseCategoricalCrossentropy 0.1) /\
    f_class_weight call2 = f_class_weight call1.
Proof.
  destruct (both_phases_same_loss_and_class_weight
              (Synthetic.host Synthetic.env_ok)
              (snd (run (Synthetic.host Synthetic.env_ok))))
    as (call1 & hist1 & call2 & hist2 & names & ft & counts
        & Hfits & Hl1 & Hl2 & Hcw & _).
  { vm_compute. reflexivity. }
  exists call1, hist1, call2, hist2. repeat split; assumption.
Defined.

(** C5.  Whenever the first fit has returned (with whatever history: all
    epochs used, or stopped early), the run goes on with phase 2, and what
    happens there is the library's doing alone.  The backbone is unfrozen
    in every such run.  The very next action is the second compile, with
    the backbone trainable and Adam at the fixed rate 1e-5: the run stops
    before it exactly when that compile raises.
    Otherwise the next action is the second fit, for [EPOCHS_FINE] epochs
    on the same model and data: the run stops before it exactly when that
    fit raises.  The script has no branch there.  The first fit ran with
    the backbone frozen and Adam on a cosine decay from 1e-3 over
    [EPOCHS * 1000] steps. *)
Theorem phase2_follows_phase1 (h : Host) (r : result unit) (s : pstate) :
  run h = (r, s) ->
  fits (trace s) <> [] ->
  exists e f g pre hist1,
    py_int h (EPOCHS_text h) = Some e /\
    py_int h (EPOCHS_FINE_text h) = Some f /\
    fits pre = [] /\
    f_compiled (phase1_fit g e) =
      Some {| c_optimizer := Adam (CosineDecay 0.001 (e * 1000));
              c_loss := SparseCategoricalCrossentropy 0.1;
              c_metrics := ["accuracy"];
              c_backbone_trainable := false |} /\
    f_epochs (phase1_fit g e) = e /\
    f_compiled (phase2_fit g f) =
      Some {| c_optimizer := Adam (FixedRate 0.00001);
              c_loss := SparseCategoricalCrossentropy 0.1;
              c_metrics := ["accuracy"];
              c_backbone_trainable := true |} /\
    f_epochs (phase2_fit g f) = f /\
    f_model (phase2_fit g f) = f_model (phase1_fit g e) /\
    f_train (phase2_fit g f) = f_train (phase1_fit g e) /\
    keras_fit h pre (phase1_fit g e) = Some hist1 /\
    base_model_trainable s = true /\
    match fault h (pre ++ [EvFit (phase1_fit g e) hist1])
            (EvCompile phase2_compiled) with
    | Some x =>
        r = Raise x /\
        trace s = pre ++ [EvFit (phase1_fit g e) hist1]
    | None =>
        match keras_fit h (pre ++ [ EvFit (phase1_fit g e) hist1;
                                    EvCompile phase2_compiled ])
                (phase2_fit g f) with
        | None =>
            r = Raise LibraryError /\
            trace s = pre ++ [ EvFit (phase1_fit g e) hist1;
                               EvCompile phase2_compiled ]
        | Some hist2 =>
            exists post,
              trace s = pre ++ [ EvFit (phase1_fit g e) hist1;
                                 EvCompile phase2_compiled;
                                 EvFit (phase2_fit g f) hist2 ] ++ post /\
              fits post = []
        end
    end.
Proof.
  intros Hrun Hfit.
  destruct (py_int h (EPOCHS_text h)) as [e|] eqn:He.
  2: { rewrite (run_bad_EPOCHS h He) in Hrun.
       injection Hrun as <- <-. done. }
  destruct (py_int h (EPOCHS_FINE_text h)) as [f|] eqn:Hf.
  2: { rewrite (run_bad_EPOCHS_FINE h e He Hf) in Hrun.
       injection Hrun as <- <-. done. }
  destruct (os_path_isdir h (DATA_DIR h)) eqn:Hdir.
  2: { exfalso. apply Hfit.
       destruct (missing_dir_cases h e f _ _ He Hf Hdir Hrun)
         as [(_ & _ & _ & ->)|(x & _ & [-> | ->])]; reflexivity. }
  rewrite (run_present_dir h e f He Hf Hdir) in Hrun.
  apply train_and_export_decided in Hrun
    as (g & names & ft & names_v & fv & hist1 & Hg & Hfit1 & Hunfrozen
        & Hcases);
    [|exact Hfit].
  exists e, f, g,
    (EvIsdir (DATA_DIR h) true
     :: prepare_events (DATA_DIR h) e names ft names_v fv), hist1.
  do 9 (split; [done|]). split; [exact Hfit1|].
  split; [exact Hunfrozen | exact Hcases].
Qed.

Lemma phase2_follows_phase1_witness :
  exists e f g pre hist1 hist2 post,
    stopped_early hist1 = true /\
    e = 1%Z /\ f = 1%Z /\
    trace (snd (run (Synthetic.host_early Synthetic.env_ok)))
      = pre ++ [ EvFit (phase1_fit g e) hist1;
                 EvCompile phase2_compiled;
                 EvFit (phase2_fit g f) hist2 ] ++ post.
Proof.
  destruct (phase2_follows_phase1
              (Synthetic.host_early Synthetic.env_ok)
              (fst (run (Synthetic.host_early Synthetic.env_ok)))
              (snd (run (Synthetic.host_early Synthetic.env_ok))))
    as (e & f & g & pre & hist1 & He & Hf & Hpre & _ & _ & _ & _ & _ & _
        & Hfit1 & _ & Hcases).
  { vm_compute. reflexivity. }
  { vm_compute. discriminate. }
  change (fault (Synthetic.host_early Synthetic.env_ok)
            (pre ++ [EvFit (phase1_fit g e) hist1])
            (EvCompile phase2_compiled))
    with (@None exn) in Hcases.
  change (keras_fit (Synthetic.host_early Synthetic.env_ok)
            (pre ++ [EvFit (phase1_fit g e) hist1; EvCompile phase2_compiled])
            (phase2_fit g f))
    with (Some {| epochs_run := 1; stopped_early := true |}) in Hcases.
  destruct Hcases as (post & Htr & Hpost).
  change (keras_fit (Synthetic.host_early Synthetic.env_ok) pre (phase1_fit g e))
    with (Some {| epochs_run := 1; stopped_early := true |}) in Hfit1.
  injection Hfit1 as <-.
  vm_compute in He. vm_compute in Hf.
  injection He as <-. injection Hf as <-.
  exists 1%Z, 1%Z, g, pre, {| epochs_run := 1; stopped_early := true |},
    {| epochs_run := 1; stopped_early := true |}, post.
  split; [reflexivity|]. split; [reflexivity|]. split; [reflexivity|].
  exact Htr.
Defined.

(** ** Augmentation *)


(** * Properties of the liveness service *)

Section Service.

Import Backend.

(** What the router answers on the two paths. *)
Lemma dispatch_health (o : option string) :
  dispatch (routes app) false {| method := "GET"; path := "/health"; origin := o |}
  = json_response 200 (JObject [("status", "healthy")]).
Proof. reflexivity. Qed.

Lemma dispatch_root (o : option string) :
  dispatch (routes app) false {| method := "GET"; path := "/"; origin := o |}
  = json_response 200
      (JObject [ ("message", "Welcome to AgriShield AI Backend");
                 ("status", "active") ]).
Proof. reflexivity. Qed.

(** The middleware leaves status and body as the router set them. *)
Lemma cors_wrap_status_body (c : cors) (inner : request -> response) (req : request) :
  status (cors_wrap c inner req) = status (inner req) /\
  body (cors_wrap c inner req) = body (inner req).
Proof. unfold cors_wrap. by destruct (origin req). Qed.

Lemma serve_last (a : FastAPI) (history : list request) (req : request) :
  last (serve a (history ++ [req])) = Some (handle a req).
Proof. unfold serve. rewrite map_app. cbn [map]. apply last_snoc. Qed.

(** C7.  After any sequence of earlier requests, and with or without an
    [Origin] header, [GET /health] is answered with status 200 and the body
    [{"status": "healthy"}], and [GET /] with status 200 and the body
    [{"message": "Welcome to AgriShield AI Backend", "status": "active"}]. *)
Theorem health_and_root_are_fixed (history : list request) (o : option string) :
  (exists resp,
      last (serve app (history ++ [{| method := "GET"; path := "/health";
                                      origin := o |}])) = Some resp /\
      status resp = 200%Z /\
      body resp = JObject [("status", "healthy")]) /\
  (exists resp,
      last (serve app (history ++ [{| method := "GET"; path := "/";
                                      origin := o |}])) = Some resp /\
      status resp = 200%Z /\
      body resp = JObject [ ("message", "Welcome to AgriShield AI Backend");
                            ("status", "active") ]).
Proof.
  split; (eexists; split; [apply serve_last|]).
  - unfold handle. cbn [user_middleware app get add_middleware new_app fold_right].
    destruct (cors_wrap_status_body cors_config (dispatch (routes app) false)
                {| method := "GET"; path := "/health"; origin := o |}) as [-> ->].
    by rewrite dispatch_health.
  - unfold handle. cbn [user_middleware app get add_middleware new_app fold_right].
    destruct (cors_wrap_status_body cors_config (dispatch (routes app) false)
                {| method := "GET"; path := "/"; origin := o |}) as [-> ->].
    by rewrite dispatch_root.
Qed.

(** C9.  The application carries one CORS middleware.  Its origin list
    holds the two named origins and the wildcard; credentials are allowed;
    the method list and the header list are the wildcard.  Every origin
    whatsoever is allowed, exactly as if the list were the wildcard alone,
    whereas the two named origins by themselves would turn other origins
    away.  Any request that carries an [Origin], whatever its method and
    path, gets the allow-origin header with the wildcard and the
    allow-credentials header. *)
Theorem cors_policy_is_unrestricted (o m p : string) :
  user_middleware app = [cors_config] /\
  allow_origins cors_config
    = ["http://localhost:5173"; "http://localhost:3000"; "*"] /\
  is_allowed_origin cors_config "http://localhost:5173" = true /\
  is_allowed_origin cors_config "http://localhost:3000" = true /\
  is_allowed_origin cors_config o = true /\
  is_allowed_origin cors_config o
    = is_allowed_origin
        {| allow_origins := ["*"]; allow_credentials := true;
           allow_methods := ["*"]; allow_headers := ["*"] |} o /\
  is_allowed_origin
    {| allow_origins := ["http://localhost:5173"; "http://localhost:3000"];
       allow_credentials := true; allow_methods := ["*"];
       allow_headers := ["*"] |} "https://elsewhere.example" = false /\
  allow_credentials cors_config = true /\
  allow_methods cors_config = ["*"] /\
  allow_headers cors_config = ["*"] /\
  ("access-control-allow-origin", "*")
    ∈ headers (handle app {| method := m; path := p; origin := Some o |}) /\
  ("access-control-allow-credentials", "true")
    ∈ headers (handle app {| method := m; path := p; origin := Some o |}).
Proof.
  repeat split.
  - unfold handle. cbn [user_middleware app get add_middleware new_app fold_right].
    unfold cors_wrap. cbn [origin headers]. set_solver.
  - unfold handle. cbn [user_middleware app get add_middleware new_app fold_right].
    unfold cors_wrap. cbn [origin headers]. set_solver.
Qed.

End Service.

(** * Every way a run can go *)

Section Outcomes.

Context (h : Host).

(** Lines 119-123, whatever happens. *)
Lemma export_trace g O s r s' :
  model_compiled s = Some phase2_compiled ->
  export h g O s = (r, s') ->
  exists post,
    s' = record post s /\ cut_exporting O g post /\
    (r = Ok tt -> post = export_events O g) /\
    (forall c, r <> Exit c).
Proof.
  intros Hc. unfold export, save, with_open, perform, bind, get_compiled.
  cbn. rewrite Hc.
  destruct (fault h (trace s) (EvSave _ _ _)) as [e|].
  { intros [= <- <-]. exists []. rewrite record_nil.
    split; [done|]. split; [by left|]. done. }
  cbn. destruct (fault h _ (EvOpen _ _ _)) as [e|].
  { intros [= <- <-]. eexists [_]. split; [done|].
    split; [right; by left|]. done. }
  cbn. destruct (write_names h _ _ _) as [[[]|c|e] s1] eqn:Hwr;
    apply write_names_cases in Hwr as (k & -> & Hk).
  - destruct Hk as [[_ ->]|[e [=]]]. rewrite firstn_all. cbn.
    destruct (fault h _ (EvClose _)) as [e|].
    + intros [= <- <-]. eexists. rewrite !record_record. split; [done|].
      split; [do 3 right; done|]. done.
    + intros [= <- <-]. eexists. rewrite !record_record. split; [done|].
      split; [|split; [intros _; cbn; by rewrite <- ?app_assoc | done]].
      right. right. left.
      exists (length (g_class_names g)). rewrite firstn_all. cbn.
      by rewrite <- ?app_assoc.
  - destruct Hk as [[[=] _]|[e [=]]].
  - intros [= <- <-]. eexists. rewrite !record_record. split; [done|].
    split; [|done]. right. right. left. exists k. cbn.
    by rewrite <- ?app_assoc.
Qed.

(** Lines 20-93, when they do not get through. *)
Lemma prepare_trace D E s r s' :
  prepare h D E s = (r, s') ->
  (forall g, r <> Ok g) ->
  exists evs, trace s' = trace s ++ evs /\ cut_preparing h D E evs.
Proof.
  unfold prepare, load_datasets, image_dataset_from_directory, MobileNetV2,
    compile, perform, bind, raise, ret, log, get_trainable, set_trainable,
    set_compiled, cut_preparing.
  destruct (keras_load h (loader_args D "training")) as [[names ft]|] eqn:Ht.
  2: { intros [= <- <-] _. exists []. rewrite app_nil_r. split; [done|].
       exists [], [], [], [], 0%nat. split; [done|]. split; intros; lia. }
  destruct (keras_load h (loader_args D "validation")) as [[names_v fv]|] eqn:Hv.
  2: { intros [= <- <-] _. eexists [_]. split; [done|].
       exists names, ft, [], [], 1%nat. split; [done|]. split; intros; [done|lia]. }
  cbn -[class_weights sparse_cce build_model].
  destruct (fault h _ (EvBackbone _ _ _)).
  { intros [= <- <-] _. eexists [_; _]. split; [cbn; by rewrite <- ?app_assoc|].
    exists names, ft, names_v, fv, 2%nat. done. }
  cbn -[class_weights sparse_cce build_model].
  destruct (fault h _ (EvModel _)).
  { intros [= <- <-] _. eexists [_; _; _]. split; [cbn; by rewrite <- ?app_assoc|].
    exists names, ft, names_v, fv, 3%nat. done. }
  cbn -[class_weights sparse_cce build_model].
  destruct (fault h _ (EvCompile _)).
  { intros [= <- <-] _. eexists [_; _; _; _].
    split; [cbn; by rewrite <- ?app_assoc|].
    exists names, ft, names_v, fv, 4%nat. done. }
  cbn -[class_weights sparse_cce build_model].
  rewrite class_weights_state.
  destruct (fst (class_weights h D names _ initial)) as [cw|c|e] eqn:Hcw.
  - intros [= <- <-] Hno. by destruct (Hno _ eq_refl).
  - intros [= <- <-] _. eexists [_; _; _; _; _].
    split; [cbn; by rewrite <- ?app_assoc|].
    exists names, ft, names_v, fv, 5%nat. done.
  - intros [= <- <-] _. eexists [_; _; _; _; _].
    split; [cbn; by rewrite <- ?app_assoc|].
    exists names, ft, names_v, fv, 5%nat. done.
Qed.


(** Lines 20-123, whatever happens. *)
Lemma train_and_export_trace D E EF O s r s' :
  train_and_export h D E EF O s = (r, s') ->
  exists evs,
    trace s' = trace s ++ evs /\
    (forall c, r <> Exit c) /\
    ((cut_preparing h D E evs /\ r <> Ok tt) \/ cut_training h D E EF O evs).
Proof.
  unfold train_and_export, bind.
  destruct (prepare h D E s) as [[g|c|e] s1] eqn:Hp.
  2: { by apply prepare_cases in Hp. }
  2: { intros [= <- <-].
       apply prepare_trace in Hp as (evs & Htr & Hcut); [|done].
       exists evs. split; [done|]. split; [done|]. by left. }
  apply prepare_cases in Hp as (names & ft & names_v & fv & Hg & ->).
  destruct (phase1 h g E _) as [r1 s2] eqn:H1.
  apply phase1_cases in H1 as [[-> ->]|(hist1 & -> & ->)].
  { intros [= <- <-]. eexists. cbn [trace]. split; [done|]. split; [done|].
    left. split; [|done].
    destruct Hg as (Hlt & Hlv & _).
    exists names, ft, names_v, fv, 5%nat. done. }
  cbn [model_compiled]. fold (phase1_fit g E).
  destruct (phase2 h g EF _) as [r2 s3] eqn:H2.
  apply phase2_cases in H2 as [(e' & -> & Ht)|(hist2 & -> & ->)].
  { intros [= <- <-]. cbn [record trace] in Ht.
    destruct Ht as [Ht|Ht]; rewrite Ht; rewrite <- ?app_assoc;
      (eexists; split; [done|]; split; [done|]; right;
       exists g, names, ft, names_v, fv, hist1; eexists;
       split; [done|]; split; [done|]).
    - by left.
    - right. by left. }
  fold (phase2_fit g EF).
  destruct (export h g O _) as [r' s4] eqn:He.
  apply export_trace in He as (post & -> & Hcut & _ & Hexit); [|done].
  intros [= <- <-]. cbn [record trace]. rewrite <- !app_assoc.
  eexists. split; [done|]. split; [done|]. right.
  exists g, names, ft, names_v, fv, hist1. eexists.
  split; [done|]. split; [done|]. right. right. by exists hist2, post.
Qed.

(** The whole script, whatever happens: it stops at the parsing of the
    epoch counts, or on the missing-directory path (at the exit, or at a
    [print] that raises), or somewhere behind the directory check. *)
Lemma run_trace r s :
  run h = (r, s) ->
  (r = Raise ValueError /\ s = initial /\
   (py_int h (EPOCHS_text h) = None \/ py_int h (EPOCHS_FINE_text h) = None)) \/
  (exists e f,
      py_int h (EPOCHS_text h) = Some e /\
      py_int h (EPOCHS_FINE_text h) = Some f /\
      ((os_path_isdir h (DATA_DIR h) = false /\
        ((r = Exit 1 /\
          trace s = [ EvIsdir (DATA_DIR h) false; EvPrint (missing_line h);
                      EvPrint hint_line ]) \/
         ((exists x, r = Raise x) /\
          (trace s = [EvIsdir (DATA_DIR h) false] \/
           trace s = [EvIsdir (DATA_DIR h) false; EvPrint (missing_line h)])))) \/
       (os_path_isdir h (DATA_DIR h) = true /\
        (forall c, r <> Exit c) /\
        exists evs,
          trace s = EvIsdir (DATA_DIR h) true :: evs /\
          ((cut_preparing h (DATA_DIR h) e evs /\ r <> Ok tt) \/
           cut_training h (DATA_DIR h) e f (OUTPUT_PATH h) evs)))).
Proof.
  destruct (py_int h (EPOCHS_text h)) as [e|] eqn:He.
  2: { rewrite (run_bad_EPOCHS h He). intros [= <- <-]. left. auto. }
  destruct (py_int h (EPOCHS_FINE_text h)) as [f|] eqn:Hf.
  2: { rewrite (run_bad_EPOCHS_FINE h e He Hf). intros [= <- <-]. left. auto. }
  intros Hrun. right. exists e, f. split; [done|]. split; [done|].
  destruct (os_path_isdir h (DATA_DIR h)) eqn:Hdir.
  - rewrite (run_present_dir h e f He Hf Hdir) in Hrun.
    apply train_and_export_trace in Hrun as (evs & Htr & Hexit & Hcut).
    right. split; [done|]. split; [done|]. by exists evs.
  - left. split; [done|].
    destruct (missing_dir_cases h e f _ _ He Hf Hdir Hrun)
      as [(-> & _ & _ & ->)|(x & -> & Htr)]; [by left | right; eauto].
Qed.

End Outcomes.

(** ** Reading the cuts *)


Lemma opens_app tr1 tr2 : opens (tr1 ++ tr2) = opens tr1 ++ opens tr2.
Proof. apply omap_app. Qed.

Lemma loads_app tr1 tr2 : loads (tr1 ++ tr2) = loads tr1 ++ loads tr2.
Proof. apply omap_app. Qed.

Lemma printed_app tr1 tr2 : printed (tr1 ++ tr2) = printed tr1 ++ printed tr2.
Proof. apply omap_app. Qed.


Lemma opens_name_writes names : opens (name_writes names) = [].
Proof. induction names; done. Qed.

Lemma loads_name_writes names : loads (name_writes names) = [].
Proof. induction names; done. Qed.

Lemma printed_name_writes names : printed (name_writes names) = [].
Proof. induction names; done. Qed.

Lemma omap_name_writes_none {B} (f : event -> option B) names :
  (forall p data, f (EvWrite p data) = None) ->
  omap f (name_writes names) = [].
Proof. intros Hf. induction names as [|name names IH]; cbn; [done|]. by rewrite Hf. Qed.

Lemma omap_written_name_writes names :
  omap (fun ev => match ev with
                  | EvWrite p data =>
                      if String.eqb p "class_names.txt" then Some data else None
                  | _ => None
                  end) (name_writes names)
  = map (fun name => name +:+ LF) names.
Proof. apply written_name_writes. Qed.

Ltac observe :=
  unfold fits, saved, opens, loads, printed, written;
  repeat (progress (cbn;
                    rewrite ?omap_app;
                    rewrite ?omap_written_name_writes;
                    try (rewrite omap_name_writes_none by done))).

(** Membership in a list that is spelled out. *)
Ltac concrete_in H :=
  repeat (apply elem_of_cons in H as [H|H]; [try discriminate H|]);
  try (by apply elem_of_nil in H).

(** What a run that stops within lines 20-93 has done: it has called the
    loader at most twice and nothing else that shows. *)
Lemma cut_preparing_seen h D E evs :
  cut_preparing h D E evs ->
  fits evs = [] /\ saved evs = [] /\ opens evs = [] /\ printed evs = [] /\
  written "class_names.txt" evs = [] /\
  (forall p data, EvWrite p data ∉ evs) /\
  loads evs `prefix_of` [loader_args D "training"; loader_args D "validation"].
Proof.
  intros (names & ft & names_v & fv & j & -> & _).
  destruct j as [|[|[|[|[|j]]]]]; cbn; rewrite ?take_nil;
    (do 5 (split; [done|]); split; [intros p data Hin; concrete_in Hin|]).
  - by eexists.
  - by eexists [_].
  - by exists [].
  - by exists [].
  - by exists [].
  - by exists [].
Qed.

(** What a run that got through phase 1 has done. *)
Lemma cut_training_seen h D E EF O evs :
  cut_training h D E EF O evs ->
  exists g names ft names_v fv k,
    prepared h D g names ft names_v fv /\
    loads evs = [loader_args D "training"; loader_args D "validation"] /\
    printed evs = [] /\
    written "class_names.txt" evs
      = map (fun name => name +:+ LF) (take k names) /\
    (forall p data, EvWrite p data ∈ evs -> p = "class_names.txt") /\
    (opens evs = [] \/ opens evs = [("class_names.txt", "w", "utf-8")]) /\
    (saved evs = [] \/ saved evs = [(O, build_model (Z.of_nat (length names)))]) /\
    (opens evs <> [] -> saved evs <> []) /\
    (saved evs <> [] ->
       exists hist1 hist2,
         fits evs = [(phase1_fit g E, hist1); (phase2_fit g EF, hist2)]) /\
    (forall call hist, (call, hist) ∈ fits evs ->
       call = phase1_fit g E \/ call = phase2_fit g EF).
Proof.
  intros (g & names & ft & names_v & fv & hist1 & tail & Hg & -> & Htail).
  assert (Hnames : g_class_names g = names) by apply Hg.
  assert (Hmodel : g_model g = build_model (Z.of_nat (length names))) by apply Hg.
  assert (Hw : forall l p data, EvWrite p data ∈ name_writes l -> p = "class_names.txt").
  { intros l p data (name & [= -> _] & _)%list_elem_of_fmap. done. }
  exists g, names, ft, names_v, fv.
  destruct Htail as [-> | [-> | (hist2 & post & -> & Hpost)]];
    [exists 0%nat | exists 0%nat |
     destruct Hpost as [-> | [-> | [(k & ->) | ->]]];
       [exists 0%nat | exists 0%nat | exists k | exists (length names)]];
    (split; [done|]);
    observe;
    rewrite ?Hmodel, ?Hnames, ?app_nil_r, ?firstn_all;
    split_and!; try done; try (by left); try (by right);
    try (intros _; by exists hist1, hist2).
  all: try (intros call hist Hin;
            repeat (rewrite elem_of_cons in Hin); rewrite elem_of_nil in Hin;
            destruct_or!; simplify_eq; auto; done).
  all: intros p data Hin;
    repeat (rewrite elem_of_cons in Hin || rewrite elem_of_app in Hin);
    rewrite ?elem_of_nil in Hin;
    destruct_or!; try discriminate; try done; by eapply Hw.
Qed.

(** ** What a run never does *)

(** The directory check shows to none of the observers. *)
Lemma isdir_unseen p b evs :
  printed (EvIsdir p b :: evs) = printed evs /\
  loads (EvIsdir p b :: evs) = loads evs /\
  saved (EvIsdir p b :: evs) = saved evs /\
  opens (EvIsdir p b :: evs) = opens evs /\
  fits (EvIsdir p b :: evs) = fits evs /\
  written "class_names.txt" (EvIsdir p b :: evs) = written "class_names.txt" evs.
Proof. done. Qed.

Ltac skip_isdir :=
  match goal with
  | |- context [EvIsdir ?p ?b :: ?evs] =>
      let H1 := fresh in let H2 := fresh in let H3 := fresh in
      let H4 := fresh in let H5 := fresh in let H6 := fresh in
      destruct (isdir_unseen p b evs) as (H1 & H2 & H3 & H4 & H5 & H6);
      rewrite ?H1, ?H2, ?H3, ?H4, ?H5, ?H6;
      clear H1 H2 H3 H4 H5 H6
  end.

(** ** The exported class names *)




(** ** More of what a run never does *)

(** X1.  [sys.exit] is reached in one place only: a run that ends through
    it ends with status 1, found the dataset root missing after both epoch
    counts had parsed, and did nothing but check the directory and print
    the two lines. *)
Theorem exit_only_at_directory_check (h : Host) (c : Z) :
  fst (run h) = Exit c ->
  c = 1%Z /\
  os_path_isdir h (DATA_DIR h) = false /\
  is_Some (py_int h (EPOCHS_text h)) /\
  is_Some (py_int h (EPOCHS_FINE_text h)) /\
  trace (snd (run h)) =
    [ EvIsdir (DATA_DIR h) false;
      EvPrint ("Missing dataset directory: " +:+ DATA_DIR h);
      EvPrint "Set PLANTVILLAGE_DIR to the root containing class subfolders." ].
Proof.
  destruct (run h) as [r s] eqn:Hrun. cbn. intros ->.
  apply run_trace in Hrun
    as [([=] & _)
       |(e & f & He & Hf
         & [(Hdir & [[[= <-] Htr]|[[x [=]] _]])|(_ & Hexit & _)])].
  - rewrite He, Hf. split_and!; first [done | exact Htr].
  - by destruct (Hexit c).
Qed.

Lemma exit_only_at_directory_check_witness :
  os_path_isdir (Synthetic.host Synthetic.env_missing)
    (DATA_DIR (Synthetic.host Synthetic.env_missing)) = false.
Proof.
  apply (exit_only_at_directory_check (Synthetic.host Synthetic.env_missing) 1).
  vm_compute. reflexivity.
Defined.

(** X2.  The script's own [print] calls (lines 16-17; what the libraries
    write to standard output themselves is theirs): the lines that got
    printed are the two diagnostic lines or the first of them or none, in
    that order; anything is printed only when the dataset root is missing;
    a run that ends through [sys.exit] printed both lines, and a run that
    completes printed none. *)
Theorem script_prints_only_on_missing_directory (h : Host) :
  printed (trace (snd (run h))) `prefix_of` [missing_line h; hint_line] /\
  (printed (trace (snd (run h))) = [] \/ os_path_isdir h (DATA_DIR h) = false) /\
  (forall c, fst (run h) = Exit c ->
     printed (trace (snd (run h))) = [missing_line h; hint_line]) /\
  (fst (run h) = Ok tt -> printed (trace (snd (run h))) = []).
Proof.
  destruct (run h) as [r s] eqn:Hrun. cbn.
  apply run_trace in Hrun
    as [(-> & -> & _)
       |(e & f & He & Hf
         & [(Hdir & [[-> ->]|[[x ->] [-> | ->]]])
           |(_ & Hexit & evs & -> & Hcut)])].
  - split_and!; [by eexists | by left | done | done].
  - split_and!; [by exists [] | by right | done | done].
  - split_and!; [by eexists | by left | done | done].
  - split_and!; [by exists [hint_line] | by right | done | done].
  - skip_isdir.
    assert (Hnone : printed evs = []).
    { destruct Hcut as [[Hcut _]|Hcut].
      - by apply cut_preparing_seen in Hcut as (_ & _ & _ & -> & _).
      - by apply cut_training_seen in Hcut
          as (g & names & ft & names_v & fv & k & _ & _ & -> & _). }
    rewrite Hnone. split_and!; [by eexists | by left | | done].
    intros c ->. by destruct (Hexit c).
Qed.

Lemma script_prints_only_on_missing_directory_witness :
  printed (trace (snd (run (Synthetic.host Synthetic.env_missing))))
  = [missing_line (Synthetic.host Synthetic.env_missing); hint_line].
Proof.
  apply (proj1 (proj2 (proj2 (script_prints_only_on_missing_directory
                                (Synthetic.host Synthetic.env_missing)))) 1%Z).
  vm_compute. reflexivity.
Defined.

(** X3.  The loader is only ever called behind a successful directory
    check, on [DATA_DIR], first for the training subset and then for the
    validation subset, and never a third time. *)
Theorem loader_called_only_behind_check (h : Host) :
  loads (trace (snd (run h)))
    `prefix_of` [ loader_args (DATA_DIR h) "training";
                  loader_args (DATA_DIR h) "validation" ] /\
  (loads (trace (snd (run h))) = [] \/
   (os_path_isdir h (DATA_DIR h) = true /\
    trace (snd (run h)) !! 0%nat = Some (EvIsdir (DATA_DIR h) true))).
Proof.
  destruct (run h) as [r s] eqn:Hrun. cbn.
  apply run_trace in Hrun
    as [(_ & -> & _)
       |(e & f & He & Hf
         & [(Hdir & [[_ ->]|[_ [-> | ->]]])|(Hdir & _ & evs & -> & Hcut)])].
  - split; [by eexists | by left].
  - split; [by eexists | by left].
  - split; [by eexists | by left].
  - split; [by eexists | by left].
  - split; [|right; done]. skip_isdir. destruct Hcut as [[Hcut _]|Hcut].
    + by apply cut_preparing_seen in Hcut as (_ & _ & _ & _ & _ & _ & Hl).
    + apply cut_training_seen in Hcut
        as (g & names & ft & names_v & fv & k & _ & -> & _). by exists [].
Qed.

(** X4.  The files the script touches itself: it opens at most one file,
    [class_names.txt], for writing as UTF-8; every write goes to that file;
    it saves at most one model, at [OUTPUT_PATH]; and every fit is given
    the same two callbacks, so the only checkpoint path is
    [best_model.h5]. *)
Theorem files_touched (h : Host) :
  (opens (trace (snd (run h))) = [] \/
   opens (trace (snd (run h))) = [("class_names.txt", "w", "utf-8")]) /\
  (saved (trace (snd (run h))) = [] \/
   exists model, saved (trace (snd (run h))) = [(OUTPUT_PATH h, model)]) /\
  Forall (fun ev => match ev with
                    | EvWrite p _ => p = "class_names.txt"
                    | _ => True
                    end) (trace (snd (run h))) /\
  Forall (fun fitted =>
            f_callbacks (fst fitted)
            = [ EarlyStopping "val_accuracy" 3 true;
                ModelCheckpoint "best_model.h5" "val_accuracy" true ])
         (fits (trace (snd (run h)))).
Proof.
  destruct (run h) as [r s] eqn:Hrun. cbn.
  apply run_trace in Hrun
    as [(_ & -> & _)
       |(e & f & He & Hf
         & [(Hdir & [[_ ->]|[_ [-> | ->]]])|(Hdir & _ & evs & -> & Hcut)])].
  - cbn. split_and!; try (by left); by constructor.
  - cbn. split_and!; try (by left); by repeat constructor.
  - cbn. split_and!; try (by left); by repeat constructor.
  - cbn. split_and!; try (by left); by repeat constructor.
  - skip_isdir. destruct Hcut as [[Hcut _]|Hcut].
    + apply cut_preparing_seen in Hcut as (-> & -> & -> & _ & _ & Hw & _).
      split_and!.
      * by left.
      * by left.
      * constructor; [done|]. apply Forall_forall. intros [] Hin; try done.
        by apply Hw in Hin.
      * by constructor.
    + apply cut_training_seen in Hcut
        as (g & names & ft & names_v & fv & k & _ & _ & _ & _ & Hw & Ho & Hs
            & _ & _ & Hf').
      split_and!; try done.
      * destruct Hs as [->| ->]; [by left | right; by eexists].
      * constructor; [done|]. apply Forall_forall. intros [] Hin; try done.
        by apply Hw in Hin.
      * apply Forall_forall. intros [call hist] Hin.
        by destruct (Hf' _ _ Hin) as [-> | ->].
Qed.

(** X5.  A model is saved only in runs in which both fits returned; the
    saved model is then the one sized by the loader's class names, and the
    second fit ran on the phase-2 configuration.  The names file is opened
    only after the model has been saved. *)
Theorem model_saved_only_after_both_fits (h : Host) :
  (saved (trace (snd (run h))) = [] \/
   exists names ft call1 hist1 call2 hist2,
     keras_load h (loader_args (DATA_DIR h) "training") = Some (names, ft) /\
     saved (trace (snd (run h)))
       = [(OUTPUT_PATH h, build_model (Z.of_nat (length names)))] /\
     fits (trace (snd (run h))) = [(call1, hist1); (call2, hist2)] /\
     f_compiled call2 = Some phase2_compiled) /\
  (opens (trace (snd (run h))) = [] \/ saved (trace (snd (run h))) <> []).
Proof.
  destruct (run h) as [r s] eqn:Hrun. cbn.
  apply run_trace in Hrun
    as [(_ & -> & _)
       |(e & f & He & Hf
         & [(Hdir & [[_ ->]|[_ [-> | ->]]])|(Hdir & _ & evs & -> & Hcut)])].
  - split; by left.
  - split; by left.
  - split; by left.
  - split; by left.
  - skip_isdir. destruct Hcut as [[Hcut _]|Hcut].
    + apply cut_preparing_seen in Hcut as (_ & -> & -> & _). split; by left.
    + apply cut_training_seen in Hcut
        as (g & names & ft & names_v & fv & k & Hg & _ & _ & _ & _ & Ho & Hs
            & Hos & Hsf & _).
      split.
      * destruct Hs as [Hs|Hs]; [by left|right].
        destruct Hsf as (hist1 & hist2 & Hfits); [by rewrite Hs|].
        exists names, ft, (phase1_fit g e), hist1, (phase2_fit g f), hist2.
        split; [apply Hg|]. done.
      * destruct Ho as [Ho|Ho]; [by left|right]. apply Hos. by rewrite Ho.
Qed.

(** X6.  Whatever happens, the [write] calls on the names file that
    returned carry a prefix of the class names, each with its line feed, in
    the loader's order: a write that raises comes after the names before
    it and ends the loop.  (This is about the calls the script makes, not
    about what has reached the disk by then.) *)
Theorem names_written_are_a_prefix (h : Host) :
  written "class_names.txt" (trace (snd (run h))) = [] \/
  exists names ft (k : nat),
    keras_load h (loader_args (DATA_DIR h) "training") = Some (names, ft) /\
    written "class_names.txt" (trace (snd (run h)))
      = map (fun name => name +:+ LF) (take k names).
Proof.
  destruct (run h) as [r s] eqn:Hrun. cbn.
  apply run_trace in Hrun
    as [(_ & -> & _)
       |(e & f & He & Hf
         & [(Hdir & [[_ ->]|[_ [-> | ->]]])|(Hdir & _ & evs & -> & Hcut)])].
  - by left.
  - by left.
  - by left.
  - by left.
  - skip_isdir. destruct Hcut as [[Hcut _]|Hcut].
    + apply cut_preparing_seen in Hcut as (_ & _ & _ & _ & -> & _). by left.
    + apply cut_training_seen in Hcut
        as (g & names & ft & names_v & fv & k & Hg & _ & _ & -> & _).
      right. exists names, ft, k. split; [apply Hg | done].
Qed.

(** ** More on the class weights *)

(** The quotient of line 93 as a fraction in lowest form of writing. *)
Lemma weight_make (total n c : Z) :
  (0 < n)%Z ->
  weight total n c = (total # Z.to_pos (n * Z.max c 1))%Q.
Proof.
  intros Hn. unfold weight.
  assert (Hm : (0 < n * Z.max c 1)%Z) by nia.
  destruct (n * Z.max c 1)%Z as [|m|m]; [lia| |lia].
  unfold Qdiv, Qinv, Qmult, inject_Z. cbn. by rewrite Z.mul_1_r.
Qed.

Lemma class_has_count_nonneg h D name c : class_has_count h D name c -> (0 <= c)%Z.
Proof. intros (entries & _ & ->). lia. Qed.

Lemma total_of_nonneg (counts : list Z) :
  Forall (fun c => 0 <= c)%Z counts -> (0 <= total_of counts)%Z.
Proof. induction 1; cbn; [done|]. unfold total_of in *. lia. Qed.

(** A run of lines 83-93 that ends with a table, read backwards. *)
Lemma class_weights_table h D names s table s' :
  class_weights h D names (Z.of_nat (length names)) s = (Ok table, s') ->
  exists counts,
    Forall2 (class_has_count h D) names counts /\
    forall i : nat,
      table !! i
      = weight (total_of counts) (Z.of_nat (length names)) <$> counts !! i.
Proof.
  intros Hrun. apply class_weights_Ok.
  rewrite class_weights_state in Hrun. by injection Hrun as -> _.
Qed.

(** X9.  Every weight lies between 0 and the total number of files, and a
    class with more files never gets the larger weight. *)
Theorem class_weights_bounds (h : Host) (D : string) (names : list string)
    (s s' : pstate) (table : gmap nat Q) :
  class_weights h D names (Z.of_nat (length names)) s = (Ok table, s') ->
  exists counts,
    Forall2 (class_has_count h D) names counts /\
    (forall (i : nat) (w : Q),
       table !! i = Some w -> (0 <= w <= inject_Z (total_of counts))%Q) /\
    (forall (i j : nat) (ci cj : Z) (wi wj : Q),
       counts !! i = Some ci -> counts !! j = Some cj ->
       table !! i = Some wi -> table !! j = Some wj ->
       (ci <= cj)%Z -> (wj <= wi)%Q).
Proof.
  intros (counts & HF & Hlook)%class_weights_table.
  exists counts. split; [exact HF|].
  assert (Hcounts : Forall (fun c => 0 <= c)%Z counts).
  { apply Forall_forall. intros c (i & Hi)%list_elem_of_lookup.
    destruct (Forall2_lookup_r _ _ _ _ _ HF Hi) as (name & _ & Hc).
    by eapply class_has_count_nonneg. }
  pose proof (total_of_nonneg counts Hcounts) as Htotal.
  split.
  - intros i w Hw. rewrite Hlook in Hw.
    destruct (counts !! i) as [c|] eqn:Hc; [|done]. injection Hw as <-.
    assert (Hn : (0 < Z.of_nat (length names))%Z).
    { apply lookup_lt_Some in Hc. apply Forall2_length in HF. lia. }
    rewrite (weight_make _ _ _ Hn).
    unfold Qle, inject_Z. cbn [Qnum Qden].
    assert (Hm : (1 <= Z.pos (Z.to_pos (Z.of_nat (length names) * Z.max c 1)))%Z)
      by lia.
    split; nia.
  - intros i j ci cj wi wj Hci Hcj Hwi Hwj Hle.
    rewrite Hlook, Hci in Hwi. rewrite Hlook, Hcj in Hwj.
    injection Hwi as <-. injection Hwj as <-.
    assert (Hn : (0 < Z.of_nat (length names))%Z).
    { apply lookup_lt_Some in Hci. apply Forall2_length in HF. lia. }
    rewrite !(weight_make _ _ _ Hn).
    unfold Qle. cbn [Qnum Qden]. rewrite !Z2Pos.id by nia.
    apply Z.mul_le_mono_nonneg_l; [done|]. nia.
Qed.

Lemma class_weights_bounds_witness :
  exists counts,
    Forall2 (class_has_count (Synthetic.host Synthetic.env_ok) "/data")
      ["blight"; "healthy"; "rust"] counts.
Proof.
  destruct (class_weights_bounds (Synthetic.host Synthetic.env_ok) "/data"
              ["blight"; "healthy"; "rust"] initial initial
              (default ∅ (match fst (class_weights (Synthetic.host Synthetic.env_ok)
                                       "/data" ["blight"; "healthy"; "rust"] 3 initial)
                          with Ok t => Some t | _ => None end)))
    as (counts & HF & _).
  { vm_compute. reflexivity. }
  by exists counts.
Defined.

Lemma count_loop_raises h D names total counts s :
  Exists (fun name => os_listdir h (os_path_join h D name) = None) names ->
  count_loop h D names total counts s = (Raise OSError, s).
Proof.
  intros HE. revert total counts.
  induction names as [|name rest IH]; intros total counts.
  - by apply Exists_nil in HE.
  - cbn [count_loop]. unfold bind, listdir.
    destruct (os_listdir h (os_path_join h D name)) as [entries|] eqn:Hls; cbn.
    + apply IH. apply Exists_cons in HE as [HE|HE]; [congruence | done].
    + done.
Qed.

Lemma listable_counts h D names :
  Forall (fun name => is_Some (os_listdir h (os_path_join h D name))) names ->
  exists counts, Forall2 (class_has_count h D) names counts.
Proof.
  induction 1 as [|name rest [entries Hls] _ [counts IH]].
  - by exists [].
  - eexists (_ :: counts). constructor; [|exact IH]. by exists entries.
Qed.

(** X10.  Lines 83-93 end in one of two ways.  If every class directory
    can be listed they yield a table with exactly the indices
    [0 .. num_classes - 1] (the empty table when there is no class); if
    some class directory cannot be listed they raise [OSError].  They
    never divide by zero, not even for an empty class directory, and they
    leave the state as it was. *)
Theorem class_weights_outcome (h : Host) (D : string) (names : list string)
    (s : pstate) :
  (Forall (fun name => is_Some (os_listdir h (os_path_join h D name))) names /\
   exists table : gmap nat Q,
     class_weights h D names (Z.of_nat (length names)) s = (Ok table, s) /\
     forall i : nat, is_Some (table !! i) <-> (i < length names)%nat) \/
  (Exists (fun name => os_listdir h (os_path_join h D name) = None) names /\
   class_weights h D names (Z.of_nat (length names)) s = (Raise OSError, s)).
Proof.
  destruct (Forall_Exists_dec
              (fun name => is_Some (os_listdir h (os_path_join h D name)))
              (fun name => os_listdir h (os_path_join h D name) = None)
              (fun name =>
                 match os_listdir h (os_path_join h D name) as o
                   return {is_Some o} + {o = None}
                 with
                 | Some l => left (ex_intro _ l eq_refl)
                 | None => right eq_refl
                 end) names) as [Hall|Hsome].
  - left. split; [exact Hall|].
    destruct (listable_counts h D names Hall) as [counts HF].
    unfold class_weights, bind.
    rewrite (count_loop_spec h D names counts 0 [] s HF). cbn [fst snd app].
    destruct (weight_loop_spec (0 + total_of counts) (Z.of_nat (length names))
                counts) with (i := 0%nat) (cw := (∅ : gmap nat Q)) (s := s)
      as (table & Hrun & Hlook).
    { destruct HF; [by left | right; cbn; lia]. }
    exists table. split; [exact Hrun|]. intros i.
    rewrite Hlook, decide_True, Nat.sub_0_r by lia.
    rewrite (Forall2_length _ _ _ HF).
    destruct (counts !! i) as [c|] eqn:Hc.
    + split; [intros _; by eapply lookup_lt_Some | by eexists].
    + rewrite lookup_empty. split; [by intros [? ?]|].
      intros Hi. apply lookup_ge_None in Hc. lia.
  - right. split; [exact Hsome|].
    unfold class_weights, bind. by rewrite (count_loop_raises h D names 0 [] s Hsome).
Qed.

(** ** The configuration read from the environment *)

(** X11.  With none of the four variables set (and [int] reading "10" and
    "5" as Python does), a run that completes has checked
    [data/plantvillage], fitted for 10 and then 5 epochs, decayed the
    phase-1 learning rate over 10000 steps and saved the model at
    [model.h5]. *)
Theorem defaults_apply (h : Host) (s : pstate) :
  environ h !! "PLANTVILLAGE_DIR" = None ->
  environ h !! "EPOCHS" = None ->
  environ h !! "EPOCHS_FINE" = None ->
  environ h !! "OUTPUT_PATH" = None ->
  py_int h "10" = Some 10%Z ->
  py_int h "5" = Some 5%Z ->
  run h = (Ok tt, s) ->
  trace s !! 0%nat = Some (EvIsdir "data/plantvillage" true) /\
  exists call1 hist1 call2 hist2 model,
    fits (trace s) = [(call1, hist1); (call2, hist2)] /\
    f_epochs call1 = 10%Z /\
    f_epochs call2 = 5%Z /\
    c_optimizer <$> f_compiled call1 = Some (Adam (CosineDecay 0.001 10000)) /\
    loads (trace s) = [ loader_args "data/plantvillage" "training";
                        loader_args "data/plantvillage" "validation" ] /\
    saved (trace s) = [("model.h5", model)].
Proof.
  intros Hd He Hf Ho H10 H5 Hrun.
  apply completed_run in Hrun
    as (Hdir & e & f & g & names & ft & names_v & fv & hist1 & hist2
        & Hpe & Hpf & Hg & ->).
  assert (HD : DATA_DIR h = "data/plantvillage")
    by (unfold DATA_DIR, environ_get; by rewrite Hd).
  assert (HO : OUTPUT_PATH h = "model.h5")
    by (unfold OUTPUT_PATH, environ_get; by rewrite Ho).
  unfold EPOCHS_text, environ_get in Hpe. rewrite He in Hpe. cbn in Hpe.
  unfold EPOCHS_FINE_text, environ_get in Hpf. rewrite Hf in Hpf. cbn in Hpf.
  rewrite H10 in Hpe. rewrite H5 in Hpf.
  injection Hpe as <-. injection Hpf as <-.
  rewrite HD, HO. split; [done|].
  exists (phase1_fit g 10), hist1, (phase2_fit g 5), hist2, (g_model g).
  unfold export_events. observe. by rewrite ?app_nil_r.
Qed.

Lemma defaults_apply_witness :
  trace (snd (run Synthetic.host_defaults)) !! 0%nat
  = Some (EvIsdir "data/plantvillage" true).
Proof.
  apply (defaults_apply Synthetic.host_defaults
           (snd (run Synthetic.host_defaults))); vm_compute; reflexivity.
Defined.

(** ** The lines of the names file *)

Lemma lines_from_count (cur name rest : string) :
  length (lines_from cur (name +:+ LF +:+ rest))
  = (count_LF name + 1 + length (lines_from EmptyString rest))%nat.
Proof.
  revert cur. induction name as [|c name IH]; intros cur.
  - change (EmptyString +:+ LF +:+ rest) with (String "010"%char rest). done.
  - change (String c name +:+ LF +:+ rest) with (String c (name +:+ LF +:+ rest)).
    cbn [lines_from count_LF]. destruct (Ascii.eqb c "010"); cbn [length];
      rewrite IH; lia.
Qed.

Lemma lines_joined_count (names : list string) :
  length (lines (joined (map (fun name => name +:+ LF) names)))
  = (length names + sum_list (count_LF <$> names))%nat.
Proof.
  unfold lines. induction names as [|name rest IH]; [reflexivity|].
  cbn [map joined foldr fmap list_fmap sum_list sum_list_with length].
  rewrite append_assoc, lines_from_count.
  unfold joined in IH. rewrite IH. cbn. lia.
Qed.

Lemma count_LF_has_LF (name : string) :
  count_LF name = 0%nat <-> has_LF name = false.
Proof.
  induction name as [|c name IH]; [done|]. cbn.
  destruct (Ascii.eqb c "010"); cbn; [split; [lia|done] | exact IH].
Qed.

Lemma no_LF_count (names : list string) :
  sum_list (count_LF <$> names) = 0%nat
  <-> forallb (fun name => negb (has_LF name)) names = true.
Proof.
  induction names as [|name rest IH]; [done|].
  cbn [forallb]. rewrite fmap_cons. cbn [sum_list sum_list_with].
  fold (sum_list (count_LF <$> rest)).
  rewrite andb_true_iff, negb_true_iff, <- count_LF_has_LF, <- IH.
  unfold id. lia.
Qed.

(** X12.  In a run that completes, [class_names.txt] has one line per
    class plus one for every line feed that occurs inside a class name:
    the names are written as they are.  So the file has exactly
    [num_classes] lines if and only if no class name contains a line
    feed. *)
Theorem names_file_line_count (h : Host) (s : pstate) :
  run h = (Ok tt, s) ->
  exists names ft text,
    keras_load h (loader_args (DATA_DIR h) "training") = Some (names, ft) /\
    file_text "class_names.txt" (trace s) None = Some text /\
    length (lines text) = (length names + sum_list (count_LF <$> names))%nat /\
    (length (lines text) = length names <->
     forallb (fun name => negb (has_LF name)) names = true).
Proof.
  intros Hrun.
  apply completed_run in Hrun
    as (Hdir & e & f & g & names & ft & names_v & fv & hist1 & hist2
        & He & Hf & Hg & Htr).
  assert (Hnames : g_class_names g = names) by apply Hg.
  exists names, ft, (joined (map (fun name => name +:+ LF) names)).
  split; [apply Hg|]. split.
  { rewrite Htr. unfold export_events. cbn.
    rewrite file_text_name_writes, Hnames. reflexivity. }
  split; [apply lines_joined_count|].
  rewrite lines_joined_count.
  pose proof (no_LF_count names) as Hsum.
  rewrite <- Hsum. lia.
Qed.

Lemma names_file_line_count_witness :
  exists names ft text,
    keras_load (Synthetic.host Synthetic.env_ok)
      (loader_args (DATA_DIR (Synthetic.host Synthetic.env_ok)) "training")
      = Some (names, ft) /\
    file_text "class_names.txt"
      (trace (snd (run (Synthetic.host Synthetic.env_ok)))) None = Some text.
Proof.
  destruct (names_file_line_count (Synthetic.host Synthetic.env_ok)
              (snd (run (Synthetic.host Synthetic.env_ok))))
    as (names & ft & text & Hload & Htext & _).
  { vm_compute. reflexivity. }
  exists names, ft, text. split; [exact Hload | exact Htext].
Defined.

(** ** What every fit is given *)

(** Every fit of every run is one of the two calls of the script, on the
    variables lines 20-93 set up. *)
Lemma run_fits (h : Host) (call : fit_call) (hist : history) :
  (call, hist) ∈ fits (trace (snd (run h))) ->
  exists e f g names ft names_v fv,
    prepared h (DATA_DIR h) g names ft names_v fv /\
    (call = phase1_fit g e \/ call = phase2_fit g f).
Proof.
  destruct (run h) as [r s] eqn:Hrun. cbn.
  apply run_trace in Hrun
    as [(_ & -> & _)
       |(e & f & He & Hf
         & [(Hdir & [[_ ->]|[_ [-> | ->]]])|(Hdir & _ & evs & -> & Hcut)])].
  - by intros ?%elem_of_nil.
  - by intros ?%elem_of_nil.
  - by intros ?%elem_of_nil.
  - by intros ?%elem_of_nil.
  - skip_isdir. destruct Hcut as [[Hcut _]|Hcut].
    + apply cut_preparing_seen in Hcut as (-> & _). by intros ?%elem_of_nil.
    + apply cut_training_seen in Hcut
        as (g & names & ft & names_v & fv & k & Hg & _ & _ & _ & _ & _ & _
            & _ & _ & Hf').
      intros Hin. exists e, f, g, names, ft, names_v, fv. split; [done|].
      by eapply Hf'.
Qed.


(** X16.  Every fit, in every run, is given a class-weight table with
    exactly one entry per output unit: the model ends in a dense layer of
    [units] units and the table's keys are [0 .. units - 1]. *)
Theorem class_weight_keys_match_output_units (h : Host) :
  Forall (fun fitted =>
            exists units,
              last (f_model (fst fitted)) = Some (Dense units "softmax") /\
              forall i : nat,
                is_Some (f_class_weight (fst fitted) !! i)
                <-> (Z.of_nat i < units)%Z)
         (fits (trace (snd (run h)))).
Proof.
  apply Forall_forall. intros [call hist] Hin.
  apply run_fits in Hin as (e & f & g & names & ft & names_v & fv & Hg & Hcall).
  destruct Hg as (_ & _ & Hcw & _ & _ & Hmodel & _).
  apply class_weights_Ok in Hcw as (counts & HF & Hlook).
  exists (Z.of_nat (length names)). cbn [fst].
  assert (Hm : f_model call = g_model g /\ f_class_weight call = g_class_weight g)
    by (destruct Hcall as [-> | ->]; done).
  destruct Hm as [-> ->]. rewrite Hmodel. split; [done|].
  intros i. rewrite Hlook, (Forall2_length _ _ _ HF).
  destruct (counts !! i) as [c|] eqn:Hc; cbn.
  - apply lookup_lt_Some in Hc. split; [lia | by eexists].
  - apply lookup_ge_None in Hc. split; [by intros [? ?] | lia].
Qed.

(** ** The helper of lines 80-81 *)

(** X17.  [count_files] counts every entry of a directory, whereas line 87
    counts the regular files only.  On a class directory both functions
    list alike, the helper's count is therefore never below the count the
    weights are built from, and the two agree exactly when every entry is
    a regular file; the helper leaves the state alone. *)
Theorem count_files_counts_every_entry (h : Host)
    (gfile_listdir : string -> option (list string))
    (D name : string) (c : Z) (s : pstate) :
  gfile_listdir (os_path_join h D name) = os_listdir h (os_path_join h D name) ->
  class_has_count h D name c ->
  exists entries,
    os_listdir h (os_path_join h D name) = Some entries /\
    count_files gfile_listdir (os_path_join h D name) s
      = (Ok (Z.of_nat (length entries)), s) /\
    (0 <= c <= Z.of_nat (length entries))%Z /\
    (c = Z.of_nat (length entries) <->
     Forall (fun f => os_path_isfile h
                        (os_path_join h (os_path_join h D name) f) = true)
            entries).
Proof.
  intros Hsame (entries & Hls & ->). exists entries.
  split; [done|]. split.
  { unfold count_files. by rewrite Hsame, Hls. }
  set (keep := fun f => os_path_isfile h (os_path_join h (os_path_join h D name) f)).
  assert (Hlen : forall l : list string,
             (length (List.filter keep l) <= length l)%nat /\
             (length (List.filter keep l) = length l
              <-> Forall (fun f => keep f = true) l)).
  { induction l as [|x l [IH1 IH2]]; [by split|].
    cbn [List.filter]. destruct (keep x) eqn:Hx; cbn [length].
    - split; [lia|]. rewrite Forall_cons. split.
      + intros Hl. split; [done|]. apply IH2. lia.
      + intros [_ Hl]. f_equal. by apply IH2.
    - split; [lia|]. rewrite Forall_cons. split; [lia|].
      intros [Hk _]. congruence. }
  destruct (Hlen entries) as [Hle Hiff]. split; [lia|].
  split; [intros Hc; apply Hiff; lia | intros Hall; apply Hiff in Hall; lia].
Qed.

Lemma count_files_counts_every_entry_witness :
  exists entries,
    os_listdir (Synthetic.host Synthetic.env_ok) "/data/blight" = Some entries /\
    count_files (os_listdir (Synthetic.host Synthetic.env_ok)) "/data/blight" initial
      = (Ok (Z.of_nat (length entries)), initial).
Proof.
  destruct (count_files_counts_every_entry (Synthetic.host Synthetic.env_ok)
              (os_listdir (Synthetic.host Synthetic.env_ok))
              "/data" "blight" 10 initial)
    as (entries & Hls & Hrun & _).
  - reflexivity.
  - exists (Synthetic.image_files 10). split; vm_compute; reflexivity.
  - exists entries. split; [exact Hls | exact Hrun].
Defined.

(** * More on the liveness service *)

Section MoreService.

Import Backend.

Lemma handle_status_body (req : request) :
  status (handle app req) = status (dispatch (routes app) false req) /\
  body (handle app req) = body (dispatch (routes app) false req).
Proof.
  unfold handle. cbn [user_middleware app get add_middleware new_app fold_right].
  apply cors_wrap_status_body.
Qed.

(** X13.  The two routes the module declares answer [GET] only.  For a
    request on [/] or on [/health] that is not a CORS preflight (the
    request type carries no [Access-Control-Request-Method]), the status is
    200 exactly when the method is [GET]; any other method is refused with
    405 and the body [{"detail": "Method Not Allowed"}]. *)
Theorem declared_routes_answer_get_only (req : request) :
  path req = "/" \/ path req = "/health" ->
  (status (handle app req) = 200%Z <-> method req = "GET") /\
  (method req <> "GET" ->
   status (handle app req) = 405%Z /\
   body (handle app req) = JObject [("detail", "Method Not Allowed")]).
Proof.
  destruct (handle_status_body req) as [-> ->].
  destruct req as [m p o]. cbn [method path].
  cbn -[String.eqb].
  destruct (String.eqb_spec "/" p) as [Hr|Hr];
    destruct (String.eqb_spec "/health" p) as [Hh|Hh];
    destruct (String.eqb_spec m "GET") as [Hm|Hm]; cbn -[String.eqb];
    (intros Hp; split; [split|]; intros; destruct_and?; destruct_or?;
     simplify_eq; try done; auto).
Qed.

Lemma declared_routes_answer_get_only_witness :
  status (handle app {| method := "POST"; path := "/health"; origin := None |})
  = 405%Z.
Proof.
  apply (declared_routes_answer_get_only
           {| method := "POST"; path := "/health"; origin := None |}).
  - right. reflexivity.
  - discriminate.
Defined.

End MoreService.
